(** * School finance client: a shallow embedding of [frontend.js]

    The React component [SchoolFinanceApp] keeps its state in [useState]
    hooks and talks to the finance service through [fetch].  The event
    handlers are embedded as programs over three effects (state writes,
    HTTP requests, reading the clock) and run against an environment that
    answers the requests.

    A handler reads the state of the render that created it and writes
    the current one; while its request is in flight the user may work
    the controls that are not disabled.  Strings are strings of bytes.
    The values a response carries are those of JSON: the conversions
    that JavaScript applies to them throw where the language makes them
    throw.  The finance service itself is not among the sources and is
    modelled in [Backend] from the specification. *)

From Stdlib Require Import ZArith QArith List String Ascii Bool.
From stdpp Require Import base option list strings gmap.

Set Warnings "-register-all".

Local Open Scope string_scope.
Local Open Scope list_scope.

(** ** JavaScript values *)

(** A JavaScript number: the two non-finite kinds and a finite one given
    by its exact value. *)
Inductive number : Type :=
| NaN
| Infinity (negative : bool)
| Finite (q : Q).

Inductive value : Type :=
| VUndefined
| VNull
| VBool (b : bool)
| VNumber (n : number)
| VString (s : string)
| VArray (items : list value)
| VObject (props : list (string * value)).

(** A thrown [Error] object: the constructor name and the message. *)
Record Exn : Type := mkExn { exn_name : string; message : string }.

(** [new Error(msg)] *)
Definition Error (msg : string) : Exn := mkExn "Error" msg.

(** The built-ins of the JavaScript runtime that the component calls,
    and the messages of the errors that the runtime and React raise.
    They belong to the engine and to the library, not to the repository,
    and are taken as parameters. *)
Class Runtime : Type := {
  parseFloat : string -> number;
  parseInt : string -> number;
  (** [Number.prototype.toString] *)
  numberToString : number -> string;
  (** message of the [TypeError] raised when a property is read from
      [null] or [undefined] *)
  nullAccessMessage : value -> string -> string;
  (** message of the [TypeError] raised when an object that has no
      primitive value is converted to a string *)
  primitiveMessage : value -> string;
  (** message of the [Error] React raises when an object is placed
      among the children of an element *)
  childMessage : value -> string
}.

(** ToBoolean *)
Definition truthy (v : value) : bool :=
  match v with
  | VUndefined | VNull => false
  | VBool b => b
  | VNumber NaN => false
  | VNumber (Infinity _) => true
  | VNumber (Finite q) => negb (Qeq_bool q 0)
  | VString EmptyString => false
  | VString (String _ _) => true
  | VArray _ | VObject _ => true
  end.

(** [a || b] *)
Definition js_or (a b : value) : value := if truthy a then a else b.

Fixpoint join (sep : string) (l : list string) : string :=
  match l with
  | [] => ""
  | [s] => s
  | s :: rest => s +:+ sep +:+ join sep rest
  end.

(** Own data properties of an object literal, in insertion order. *)
Fixpoint lookup_prop (k : string) (ps : list (string * value)) : option value :=
  match ps with
  | [] => None
  | (k', v) :: rest => if String.eqb k k' then Some v else lookup_prop k rest
  end.

(** ToString, as the template literal, [new Error], [localStorage.setItem]
    and the key of a React element apply it.  An array is joined with
    commas, its items converted from left to right, [null] and
    [undefined] giving the empty string.  A plain object gives
    ["[object Object]"] through [Object.prototype.toString], unless it
    has a property [toString] of its own: no value here is a function,
    so that property cannot be called, [valueOf] gives no primitive
    either, and the conversion throws a [TypeError]. *)
Fixpoint to_string {rt : Runtime} (v : value) : Exn + string :=
  match v with
  | VUndefined => inr "undefined"
  | VNull => inr "null"
  | VBool true => inr "true"
  | VBool false => inr "false"
  | VNumber n => inr (numberToString n)
  | VString s => inr s
  | VArray items =>
      match
        (fix texts (l : list value) : Exn + list string :=
           match l with
           | [] => inr []
           | x :: rest =>
               match match x with
                     | VUndefined | VNull => inr ""
                     | _ => to_string x
                     end with
               | inl e => inl e
               | inr t =>
                   match texts rest with
                   | inl e => inl e
                   | inr ts => inr (t :: ts)
                   end
               end
           end) items
      with
      | inl e => inl e
      | inr ts => inr (join "," ts)
      end
  | VObject props =>
      match lookup_prop "toString" props with
      | Some _ => inl (mkExn "TypeError" (primitiveMessage v))
      | None => inr "[object Object]"
      end
  end.

(** Writing a key that is already there keeps its position, as the
    spread [{...o, k: v}] does. *)
Fixpoint set_prop (k : string) (v : value) (ps : list (string * value))
  : list (string * value) :=
  match ps with
  | [] => [(k, v)]
  | (k', v') :: rest =>
      if String.eqb k k' then (k, v) :: rest else (k', v') :: set_prop k v rest
  end.

(** The property read [o.k] for the data keys the component reads (none
    of them is a built-in such as [length]): it throws on [null] and
    [undefined] and gives [undefined] where the key is missing. *)
Definition get {rt : Runtime} (o : value) (k : string) : Exn + value :=
  match o with
  | VUndefined | VNull => inl (mkExn "TypeError" (nullAccessMessage o k))
  | VObject ps => inr (default VUndefined (lookup_prop k ps))
  | _ => inr VUndefined
  end.

Definition is_finite (n : number) : bool :=
  match n with Finite _ => true | _ => false end.

(** A number as JSON carries it: there is no JSON for [NaN] and the
    infinities, which [JSON.stringify] writes as [null]. *)
Definition json_number (n : number) : value :=
  if is_finite n then VNumber n else VNull.

(** What [JSON.parse (JSON.stringify v)] gives: [None] where
    [JSON.stringify] returns [undefined].  Non-finite numbers become
    [null], [undefined] properties are dropped and [undefined] items
    become [null]. *)
Fixpoint json_of (v : value) : option value :=
  match v with
  | VUndefined => None
  | VNull => Some VNull
  | VBool b => Some (VBool b)
  | VNumber n => Some (json_number n)
  | VString s => Some (VString s)
  | VArray items =>
      Some (VArray (List.map (fun x => default VNull (json_of x)) items))
  | VObject props =>
      Some (VObject
              ((fix go (ps : list (string * value)) : list (string * value) :=
                  match ps with
                  | [] => []
                  | (k, x) :: rest =>
                      match json_of x with
                      | Some j => (k, j) :: go rest
                      | None => go rest
                      end
                  end) props))
  end.

(** A piece of text held by the browser.  The text that [JSON.stringify]
    produces is kept as the value it denotes. *)
Inductive Text : Type :=
| Plain (s : string)
| JsonText (v : value).

(** ** HTTP *)

Inductive Body : Type :=
| NoBody
| FormData (entries : list (string * string))
| BodyText (t : Text).

(** The two arguments of [fetch(url, config)]. *)
Record Request : Type := mkRequest {
  url : string;
  method : option string;
  headers : option (list (string * string));
  body : Body
}.

Fixpoint assoc (k : string) (l : list (string * string)) : option string :=
  match l with
  | [] => None
  | (k', v) :: rest => if String.eqb k k' then Some v else assoc k rest
  end.

(** The header [name] of a request, if it carries it. *)
Definition header (name : string) (r : Request) : option string :=
  match headers r with
  | Some hs => assoc name hs
  | None => None
  end.

(** What the component observes of a response: [response.ok], derived
    from the status, and what [response.json()] settles to. *)
Record Response : Type := mkResponse {
  status : Z;
  json : Exn + value
}.

Definition ok (r : Response) : bool :=
  ((200 <=? status r) && (status r <=? 299))%Z.

Inductive FetchOutcome : Type :=
| Rejected (e : Exn)
| Resolved (r : Response).

(** ** Component state *)

(** [loginData] *)
Record LoginData : Type := mkLoginData {
  login_username : string;
  login_password : string
}.

(** [feePayment]: every field holds the text of its input. *)
Record FeePayment : Type := mkFeePayment {
  student_id : string;
  amount : string;
  transaction_date : string;
  payment_method : string;
  reference_details : string;
  description : string;
  year_id : string
}.

(** [newUser] *)
Record NewUser : Type := mkNewUser {
  username : string;
  password : string;
  full_name : string;
  role : string
}.

(** The [useState] hooks of [SchoolFinanceApp], in the order of the
    source. *)
Record State : Type := mkState {
  token : value;
  user : value;
  activeTab : string;
  loading : bool;
  error : string;
  success : string;
  loginData : LoginData;
  feePayment : FeePayment;
  studentSearchId : string;
  studentDetails : value;
  feeSummary : value;
  summaryStudentId : string;
  summaryYearId : string;
  transactionHistory : value;
  historyStartDate : string;
  historyEndDate : string;
  newUser : NewUser
}.

(** What a handler can write: the component state and [localStorage]. *)
Record Machine : Type := mkMachine {
  ui : State;
  localStorage : gmap string Text
}.

(** The setters the handlers call. *)
Definition setToken (v : value) (s : State) : State :=
  let 'mkState _ us tab ld er su lg fp sid sd fs ssi syi th hs he nu := s in
  mkState v us tab ld er su lg fp sid sd fs ssi syi th hs he nu.

Definition setUser (v : value) (s : State) : State :=
  let 'mkState tk _ tab ld er su lg fp sid sd fs ssi syi th hs he nu := s in
  mkState tk v tab ld er su lg fp sid sd fs ssi syi th hs he nu.

Definition setActiveTab (t : string) (s : State) : State :=
  let 'mkState tk us _ ld er su lg fp sid sd fs ssi syi th hs he nu := s in
  mkState tk us t ld er su lg fp sid sd fs ssi syi th hs he nu.

Definition setLoading (b : bool) (s : State) : State :=
  let 'mkState tk us tab _ er su lg fp sid sd fs ssi syi th hs he nu := s in
  mkState tk us tab b er su lg fp sid sd fs ssi syi th hs he nu.

Definition setError (e : string) (s : State) : State :=
  let 'mkState tk us tab ld _ su lg fp sid sd fs ssi syi th hs he nu := s in
  mkState tk us tab ld e su lg fp sid sd fs ssi syi th hs he nu.

Definition setSuccess (m : string) (s : State) : State :=
  let 'mkState tk us tab ld er _ lg fp sid sd fs ssi syi th hs he nu := s in
  mkState tk us tab ld er m lg fp sid sd fs ssi syi th hs he nu.

Definition setFeePayment (f : FeePayment) (s : State) : State :=
  let 'mkState tk us tab ld er su lg _ sid sd fs ssi syi th hs he nu := s in
  mkState tk us tab ld er su lg f sid sd fs ssi syi th hs he nu.

Definition setStudentDetails (v : value) (s : State) : State :=
  let 'mkState tk us tab ld er su lg fp sid _ fs ssi syi th hs he nu := s in
  mkState tk us tab ld er su lg fp sid v fs ssi syi th hs he nu.

Definition setFeeSummary (v : value) (s : State) : State :=
  let 'mkState tk us tab ld er su lg fp sid sd _ ssi syi th hs he nu := s in
  mkState tk us tab ld er su lg fp sid sd v ssi syi th hs he nu.

Definition setTransactionHistory (v : value) (s : State) : State :=
  let 'mkState tk us tab ld er su lg fp sid sd fs ssi syi _ hs he nu := s in
  mkState tk us tab ld er su lg fp sid sd fs ssi syi v hs he nu.

Definition setNewUser (n : NewUser) (s : State) : State :=
  let 'mkState tk us tab ld er su lg fp sid sd fs ssi syi th hs he _ := s in
  mkState tk us tab ld er su lg fp sid sd fs ssi syi th hs he n.

Definition on_ui (f : State -> State) (m : Machine) : Machine :=
  mkMachine (f (ui m)) (localStorage m).

(** [localStorage.setItem] and [localStorage.removeItem] *)
Definition setItem (k : string) (t : Text) (m : Machine) : Machine :=
  mkMachine (ui m) (<[k := t]> (localStorage m)).

Definition removeItem (k : string) (m : Machine) : Machine :=
  mkMachine (ui m) (delete k (localStorage m)).

(** The setters the inputs call. *)
Definition setLoginData (d : LoginData) (s : State) : State :=
  let 'mkState tk us tab ld er su _ fp sid sd fs ssi syi th hs he nu := s in
  mkState tk us tab ld er su d fp sid sd fs ssi syi th hs he nu.

Definition setStudentSearchId (v : string) (s : State) : State :=
  let 'mkState tk us tab ld er su lg fp _ sd fs ssi syi th hs he nu := s in
  mkState tk us tab ld er su lg fp v sd fs ssi syi th hs he nu.

Definition setSummaryStudentId (v : string) (s : State) : State :=
  let 'mkState tk us tab ld er su lg fp sid sd fs _ syi th hs he nu := s in
  mkState tk us tab ld er su lg fp sid sd fs v syi th hs he nu.

Definition setSummaryYearId (v : string) (s : State) : State :=
  let 'mkState tk us tab ld er su lg fp sid sd fs ssi _ th hs he nu := s in
  mkState tk us tab ld er su lg fp sid sd fs ssi v th hs he nu.

Definition setHistoryStartDate (v : string) (s : State) : State :=
  let 'mkState tk us tab ld er su lg fp sid sd fs ssi syi th _ he nu := s in
  mkState tk us tab ld er su lg fp sid sd fs ssi syi th v he nu.

Definition setHistoryEndDate (v : string) (s : State) : State :=
  let 'mkState tk us tab ld er su lg fp sid sd fs ssi syi th hs _ nu := s in
  mkState tk us tab ld er su lg fp sid sd fs ssi syi th hs v nu.

(** [handleLogout], which does not wait for anything. *)
Definition handleLogout (m : Machine) : Machine :=
  on_ui (setActiveTab "dashboard")
    (removeItem "user"
       (removeItem "token"
          (on_ui (setUser VNull) (on_ui (setToken VNull) m)))).

(** ** What the user can do at any time

    The inputs, the tabs and the logout button carry no [disabled]
    attribute: the user can work them while a request is in flight. *)

Inductive FeePaymentField : Type :=
| InStudentId
| InAmount
| InTransactionDate
| InPaymentMethod
| InReferenceDetails
| InDescription
| InYearId.

Inductive NewUserField : Type :=
| InUsername
| InPassword
| InFullName
| InRole.

(** The inputs of the login form (lines 262 and 273), the tabs (340),
    the logout button (314), the inputs of the fee-payment form
    (415-484), the search fields (512, 568, 575), the two dates of the
    history (644, 653) and the inputs of the new-user form (731-763). *)
Inductive UserAction : Type :=
| TypeLoginUsername (v : string)
| TypeLoginPassword (v : string)
| ChooseTab (id : string)
| ClickLogout
| TypeFeePayment (f : FeePaymentField) (v : string)
| TypeStudentSearchId (v : string)
| TypeSummaryStudentId (v : string)
| TypeSummaryYearId (v : string)
| TypeHistoryStartDate (v : string)
| TypeHistoryEndDate (v : string)
| TypeNewUser (f : NewUserField) (v : string).

(** [{...feePayment, field: v}] *)
Definition with_fee_payment (f : FeePaymentField) (v : string) (p : FeePayment)
  : FeePayment :=
  let 'mkFeePayment sid amt date meth ref descr yid := p in
  match f with
  | InStudentId => mkFeePayment v amt date meth ref descr yid
  | InAmount => mkFeePayment sid v date meth ref descr yid
  | InTransactionDate => mkFeePayment sid amt v meth ref descr yid
  | InPaymentMethod => mkFeePayment sid amt date v ref descr yid
  | InReferenceDetails => mkFeePayment sid amt date meth v descr yid
  | InDescription => mkFeePayment sid amt date meth ref v yid
  | InYearId => mkFeePayment sid amt date meth ref descr v
  end.

(** [{...newUser, field: v}] *)
Definition with_new_user (f : NewUserField) (v : string) (u : NewUser) : NewUser :=
  let 'mkNewUser name pass full r := u in
  match f with
  | InUsername => mkNewUser v pass full r
  | InPassword => mkNewUser name v full r
  | InFullName => mkNewUser name pass v r
  | InRole => mkNewUser name pass full v
  end.

(** The [onChange] and [onClick] handlers of these controls. *)
Definition perform (a : UserAction) (m : Machine) : Machine :=
  match a with
  | TypeLoginUsername v =>
      on_ui (fun s => setLoginData (mkLoginData v (login_password (loginData s))) s) m
  | TypeLoginPassword v =>
      on_ui (fun s => setLoginData (mkLoginData (login_username (loginData s)) v) s) m
  | ChooseTab id => on_ui (setActiveTab id) m
  | ClickLogout => handleLogout m
  | TypeFeePayment f v =>
      on_ui (fun s => setFeePayment (with_fee_payment f v (feePayment s)) s) m
  | TypeStudentSearchId v => on_ui (setStudentSearchId v) m
  | TypeSummaryStudentId v => on_ui (setSummaryStudentId v) m
  | TypeSummaryYearId v => on_ui (setSummaryYearId v) m
  | TypeHistoryStartDate v => on_ui (setHistoryStartDate v) m
  | TypeHistoryEndDate v => on_ui (setHistoryEndDate v) m
  | TypeNewUser f v =>
      on_ui (fun s => setNewUser (with_new_user f v (newUser s)) s) m
  end.

(** One after the other. *)
Fixpoint perform_all (l : list UserAction) (m : Machine) : Machine :=
  match l with
  | [] => m
  | a :: rest => perform_all rest (perform a m)
  end.

(** ** Handler programs *)

(** An [async] handler: it returns, throws, writes the machine, awaits
    [fetch], or reads [new Date().toISOString()], a text made of the
    date, a "T" and the time of day. *)
Inductive Prog (A : Type) : Type :=
| Ret (a : A)
| Throw (e : Exn)
| Act (f : Machine -> Machine) (k : Prog A)
| Fetch (r : Request) (k : FetchOutcome -> Prog A)
| Clock (k : string -> Prog A).

Arguments Ret {A} a.
Arguments Throw {A} e.
Arguments Act {A} f k.
Arguments Fetch {A} r k.
Arguments Clock {A} k.

Fixpoint bind {A B : Type} (p : Prog A) (f : A -> Prog B) : Prog B :=
  match p with
  | Ret a => f a
  | Throw e => Throw e
  | Act g k => Act g (bind k f)
  | Fetch r k => Fetch r (fun o => bind (k o) f)
  | Clock k => Clock (fun t => bind (k t) f)
  end.

#[global] Instance prog_ret : MRet Prog := @Ret.
#[global] Instance prog_bind : MBind Prog := fun A B f p => bind p f.

(** [try { p } catch (err) { h err }] *)
Fixpoint try_catch {A : Type} (p : Prog A) (h : Exn -> Prog A) : Prog A :=
  match p with
  | Ret a => Ret a
  | Throw e => h e
  | Act g k => Act g (try_catch k h)
  | Fetch r k => Fetch r (fun o => try_catch (k o) h)
  | Clock k => Clock (fun t => try_catch (k t) h)
  end.

(** [try { p } finally { f }] *)
Fixpoint finally {A : Type} (p : Prog A) (f : Prog unit) : Prog A :=
  match p with
  | Ret a => f ;; Ret a
  | Throw e => f ;; Throw e
  | Act g k => Act g (finally k f)
  | Fetch r k => Fetch r (fun o => finally (k o) f)
  | Clock k => Clock (fun t => finally (k t) f)
  end.

Definition act (f : Machine -> Machine) : Prog unit := Act f (Ret tt).
Definition set_state (f : State -> State) : Prog unit := act (on_ui f).
Definition fetch (r : Request) : Prog FetchOutcome := Fetch r Ret.
Definition toISOString_now : Prog string := Clock Ret.
Definition lift {A : Type} (r : Exn + A) : Prog A :=
  match r with inl e => Throw e | inr a => Ret a end.

(** [await fetch(url, config)]: a rejected promise is a throw. *)
Definition await_fetch (r : Request) : Prog Response :=
  o ← fetch r;
  match o with
  | Rejected e => Throw e
  | Resolved resp => Ret resp
  end.

(** ** Running a handler *)

(** The world outside the component: it answers requests, tells the
    time, and holds the user, who may work the controls while a request
    is in flight. *)
Record Env (W : Type) : Type := mkEnv {
  env_fetch : W -> Request -> FetchOutcome * W;
  env_clock : W -> string * W;
  env_user : W -> list UserAction
}.
Arguments mkEnv {W} _ _ _.
Arguments env_fetch {W} _ _ _.
Arguments env_clock {W} _ _.
Arguments env_user {W} _ _.

(** A request as the component lives it: the request, the machine React
    shows while it is in flight, the way it settled, and the machine the
    handler resumes on, after what the user did in the meantime. *)
Record Exchange : Type := mkExchange {
  request : Request;
  shown : Machine;
  outcome : FetchOutcome;
  resumed : Machine
}.

(** What a handler did to the world. *)
Inductive Event : Type :=
| Requested (x : Exchange)
| ClockRead (iso : string).

(** The outcome of a handler: the machine it leaves, the world, what it
    did to the world and how it ended. *)
Record Run (W A : Type) : Type := mkRun {
  final : Machine;
  world : W;
  trace : list Event;
  result : Exn + A
}.
Arguments mkRun {W A} _ _ _ _.
Arguments final {W A} _.
Arguments world {W A} _.
Arguments trace {W A} _.
Arguments result {W A} _.

Definition logged {W A : Type} (e : Event) (x : Run W A) : Run W A :=
  mkRun (final x) (world x) (e :: trace x) (result x).

Fixpoint run {W A : Type} (env : Env W) (p : Prog A) (m : Machine) (w : W) : Run W A :=
  match p with
  | Ret a => mkRun m w [] (inr a)
  | Throw e => mkRun m w [] (inl e)
  | Act f k => run env k (f m) w
  | Fetch r k =>
      let (o, w') := env_fetch env w r in
      let m' := perform_all (env_user env w) m in
      logged (Requested (mkExchange r m o m')) (run env (k o) m' w')
  | Clock k =>
      let (t, w') := env_clock env w in
      logged (ClockRead t) (run env (k t) m w')
  end.

(** ** The handlers of [SchoolFinanceApp]

    The handlers are embedded statement by statement.  Left out is
    [e.preventDefault()], which only stops the browser from submitting
    the form itself.  The mount effect [fetchUserInfo], which reads the
    local storage back, comes further down. *)

Definition API_BASE_URL : string := "http://localhost:8000".

(** The second argument of [apiCall]; an absent [body] is [undefined]. *)
Record Options : Type := mkOptions {
  opt_method : option string;
  opt_headers : option (list (string * string));
  opt_body : value
}.

(** [options = {}] *)
Definition no_options : Options := mkOptions None None VUndefined.

(** [s.split(c)[0]] *)
Fixpoint before (c : ascii) (s : string) : string :=
  match s with
  | EmptyString => EmptyString
  | String a rest => if Ascii.eqb a c then EmptyString else String a (before c rest)
  end.

(** [new Date().toISOString().split('T')[0]] *)
Definition today : Prog string :=
  iso ← toISOString_now; mret (before "T"%char iso).

(** [JSON.stringify v] handed to [localStorage.setItem], which stores
    the text ["undefined"] when there is nothing to stringify. *)
Definition JSON_stringify (v : value) : Text :=
  match json_of v with
  | Some j => JsonText j
  | None => Plain "undefined"
  end.

Section Handlers.
Context {rt : Runtime}.

(** The [body] of the [fetch] configuration after [apiCall] has
    stringified it: a truthy body that is not a string goes through
    [JSON.stringify]; [fetch] sends no body for [undefined] and [null]
    and the text of any other value (the falsy ones left are [false],
    the numbers 0 and [NaN], and the empty string). *)
Definition fetch_body (b : value) : Body :=
  if truthy b then
    match b with
    | VString s => BodyText (Plain s)
    | _ => match json_of b with
           | Some j => BodyText (JsonText j)
           | None => NoBody
           end
    end
  else
    match b with
    | VBool _ => BodyText (Plain "false")
    | VNumber n => BodyText (Plain (numberToString n))
    | VString s => BodyText (Plain s)
    | _ => NoBody
    end.

(** [{ 'Content-Type': 'application/json',
       ...(token && { 'Authorization': `Bearer ${token}` }) }]: the
    template literal converts a truthy token to a string, which throws
    for a token that has no primitive value. *)
Definition default_headers (tok : value) : Exn + list (string * string) :=
  if truthy tok then
    match to_string tok with
    | inl e => inl e
    | inr t =>
        inr [("Content-Type", "application/json"); ("Authorization", "Bearer " +:+ t)]
    end
  else inr [("Content-Type", "application/json")].

(** [throw new Error(data.detail || fallback)] for a response that is
    not ok: the constructor converts its argument to a string, and
    where that conversion throws, its [TypeError] is what is thrown. *)
Definition check_ok (fallback : string) (response : Response) (data : value)
  : Prog unit :=
  if ok response then mret tt
  else
    detail ← lift (get data "detail");
    msg ← lift (to_string (js_or detail (VString fallback)));
    Throw (Error msg).

(** [apiCall]: the headers are composed, and may throw, before anything
    else is done with the options. *)
Definition apiCall (s : State) (endpoint : string) (options : Options)
  : Prog value :=
  let url := API_BASE_URL +:+ endpoint in
  own ← lift (default_headers (token s));
  let config :=
    mkRequest url (opt_method options)
      (Some (default own (opt_headers options)))
      (fetch_body (opt_body options)) in
  response ← await_fetch config;
  data ← lift (json response);
  check_ok "An error occurred" response data;;
  mret data.

(** [handleLogin] calls [fetch] itself.  [localStorage.setItem]
    converts the token to a string, which may throw, after [setToken]
    has been called; the storage is taken to have room for the two
    items. *)
Definition handleLogin (s : State) : Prog unit :=
  set_state (setLoading true);;
  set_state (setError "");;
  finally
    (try_catch
       (let formData :=
          [("username", login_username (loginData s));
           ("password", login_password (loginData s))] in
        response ← await_fetch
          (mkRequest (API_BASE_URL +:+ "/login") (Some "POST") None
             (FormData formData));
        data ← lift (json response);
        check_ok "Login failed" response data;;
        access_token ← lift (get data "access_token");
        set_state (setToken access_token);;
        text ← lift (to_string access_token);
        act (setItem "token" (Plain text));;
        let userInfo := VObject [("username", VString (login_username (loginData s)))] in
        set_state (setUser userInfo);;
        act (setItem "user" (JSON_stringify userInfo));;
        set_state (setSuccess "Login successful!"))
       (fun err => set_state (setError (message err))))
    (set_state (setLoading false)).

(** [feePayment] as the object it is. *)
Definition feePayment_object (f : FeePayment) : list (string * value) :=
  [("student_id", VString (student_id f));
   ("amount", VString (amount f));
   ("transaction_date", VString (transaction_date f));
   ("payment_method", VString (payment_method f));
   ("reference_details", VString (reference_details f));
   ("description", VString (description f));
   ("year_id", VString (year_id f))].

(** [{ ...feePayment, amount: parseFloat(feePayment.amount),
       student_id: parseInt(feePayment.student_id),
       year_id: parseInt(feePayment.year_id) }] *)
Definition fee_payment_payload (f : FeePayment) : value :=
  VObject
    (set_prop "year_id" (VNumber (parseInt (year_id f)))
       (set_prop "student_id" (VNumber (parseInt (student_id f)))
          (set_prop "amount" (VNumber (parseFloat (amount f)))
             (feePayment_object f)))).

(** The value [feePayment] is reset to, for the day the clock gives. *)
Definition blank_fee_payment (date : string) : FeePayment :=
  mkFeePayment "" "" date "Cash" "" "" "".

Definition handleFeePayment (s : State) : Prog unit :=
  set_state (setLoading true);;
  set_state (setError "");;
  set_state (setSuccess "");;
  finally
    (try_catch
       (apiCall s "/transactions/fee-payment"
          (mkOptions (Some "POST") None (fee_payment_payload (feePayment s)));;
        set_state (setSuccess "Fee payment recorded successfully!");;
        date ← today;
        set_state (setFeePayment (blank_fee_payment date)))
       (fun err => set_state (setError (message err))))
    (set_state (setLoading false)).

(** [!s] for a string *)
Definition is_empty (s : string) : bool := negb (truthy (VString s)).

Definition fetchStudentDetails (s : State) : Prog unit :=
  if is_empty (studentSearchId s) then mret tt
  else
    set_state (setLoading true);;
    set_state (setError "");;
    set_state (setStudentDetails VNull);;
    finally
      (try_catch
         (data ← apiCall s ("/students/" +:+ studentSearchId s +:+ "/details") no_options;
          set_state (setStudentDetails data))
         (fun err => set_state (setError (message err))))
      (set_state (setLoading false)).

Definition fetchFeeSummary (s : State) : Prog unit :=
  if is_empty (summaryStudentId s) || is_empty (summaryYearId s) then mret tt
  else
    set_state (setLoading true);;
    set_state (setError "");;
    set_state (setFeeSummary VNull);;
    finally
      (try_catch
         (data ← apiCall s
            ("/students/" +:+ summaryStudentId s +:+ "/fee-summary/" +:+ summaryYearId s)
            no_options;
          set_state (setFeeSummary data))
         (fun err => set_state (setError (message err))))
      (set_state (setLoading false)).

Definition fetchTransactionHistory (s : State) : Prog unit :=
  set_state (setLoading true);;
  set_state (setError "");;
  finally
    (try_catch
       (data ← apiCall s
          ("/transactions/history?start_date=" +:+ historyStartDate s
             +:+ "&end_date=" +:+ historyEndDate s)
          no_options;
        set_state (setTransactionHistory data))
       (fun err => set_state (setError (message err))))
    (set_state (setLoading false)).

(** [newUser] as the object it is. *)
Definition newUser_object (u : NewUser) : value :=
  VObject [("username", VString (username u));
           ("password", VString (password u));
           ("full_name", VString (full_name u));
           ("role", VString (role u))].

Definition blank_new_user : NewUser := mkNewUser "" "" "" "Teaching Staff".

Definition createUser (s : State) : Prog unit :=
  set_state (setLoading true);;
  set_state (setError "");;
  set_state (setSuccess "");;
  finally
    (try_catch
       (apiCall s "/signup" (mkOptions (Some "POST") None (newUser_object (newUser s)));;
        set_state (setSuccess "User created successfully!");;
        set_state (setNewUser blank_new_user))
       (fun err => set_state (setError (message err))))
    (set_state (setLoading false)).

(** The six operations that talk to the finance service. *)
Inductive Operation : Type :=
| Login
| RecordFeePayment
| LookupStudent
| GetFeeSummary
| GetHistory
| CreateUser.

Definition handler (op : Operation) : State -> Prog unit :=
  match op with
  | Login => handleLogin
  | RecordFeePayment => handleFeePayment
  | LookupStudent => fetchStudentDetails
  | GetFeeSummary => fetchFeeSummary
  | GetHistory => fetchTransactionHistory
  | CreateUser => createUser
  end.

(** A handler is the closure of the render it was created in: it reads
    the state of that render and writes the machine. *)
Definition dispatch {W : Type} (env : Env W) (op : Operation) (m : Machine) (w : W)
  : Run W unit :=
  run env (handler op (ui m)) m w.

(** ** What is rendered *)

(** The [disabled] attribute of the button that starts an operation. *)
Definition disabled (op : Operation) (s : State) : bool :=
  match op with
  | Login | RecordFeePayment | GetHistory | CreateUser => loading s
  | LookupStudent => loading s || is_empty (studentSearchId s)
  | GetFeeSummary =>
      loading s || is_empty (summaryStudentId s) || is_empty (summaryYearId s)
  end.

(** [{studentDetails && (...)}]: the student card is there when
    [studentDetails] is truthy. *)
Definition student_card_shown (s : State) : bool := truthy (studentDetails s).

(** A value placed among the children of an element is shown as text
    when it is a string or a number, shows nothing when it is [null],
    [undefined] or a boolean, and is taken item by item when it is an
    array; an object is refused by React with an [Error].
    [invalid_child v] is the object React meets first in [v]: the items
    of an array are gone through in order, and what a nested array holds
    is only looked at after them. *)
Definition is_object (v : value) : bool :=
  match v with VObject _ => true | _ => false end.

Fixpoint invalid_child (v : value) : option value :=
  match v with
  | VObject _ => Some v
  | VArray items =>
      match List.find is_object items with
      | Some o => Some o
      | None =>
          (fix first (l : list value) : option value :=
             match l with
             | [] => None
             | x :: rest =>
                 match invalid_child x with
                 | Some o => Some o
                 | None => first rest
                 end
             end) items
      end
  | _ => None
  end.

(** The children of the elements of a piece of markup, in the order of
    the document: React throws at the first one it refuses. *)
Fixpoint children (vs : list value) : Exn + unit :=
  match vs with
  | [] => inr tt
  | v :: rest =>
      match invalid_child v with
      | Some o => inl (mkExn "Error" (childMessage o))
      | None => children rest
      end
  end.

(** The fee-summary card, [{feeSummary && (...)}], as the values its
    cells hold, in the order they are read: the name, the admission
    number, the academic year and the status, then the three amounts
    [₹{feeSummary.total_fees_due}], [₹{feeSummary.total_amount_paid}]
    and [₹{feeSummary.pending_fees}].  The card is not rendered when
    [feeSummary] is falsy; rendering throws when [student_details]
    is missing and, once every cell has been read, when React refuses
    what a cell holds. *)
Record FeeSummaryCard : Type := mkFeeSummaryCard {
  card_name : value;
  card_admission_number : value;
  card_academic_year : value;
  card_status : value;
  card_total_fees_due : value;
  card_total_amount_paid : value;
  card_pending_fees : value
}.

Definition and_then {A B : Type} (r : Exn + A) (f : A -> Exn + B) : Exn + B :=
  match r with
  | inl e => inl e
  | inr a => f a
  end.

Definition fee_summary_card (s : State) : option (Exn + FeeSummaryCard) :=
  let fs := feeSummary s in
  if truthy fs then
    Some (and_then (get fs "student_details") (fun details =>
          and_then (get details "full_name") (fun name =>
          and_then (get details "admission_number") (fun number =>
          and_then (get fs "academic_year") (fun year =>
          and_then (get details "status") (fun status =>
          and_then (get fs "total_fees_due") (fun due =>
          and_then (get fs "total_amount_paid") (fun paid =>
          and_then (get fs "pending_fees") (fun pending =>
          and_then (children [name; number; year; status; due; paid; pending])
            (fun _ =>
          inr (mkFeeSummaryCard name number year status due paid pending)))))))))))
  else None.

End Handlers.

(** ** The finance service *)

(** The service (the FastAPI application the Dockerfile starts) is not
    among the sources; the definitions of this module follow sections 3,
    4, 6 and 7 of the specification.  The field names of the JSON bodies
    are the ones the client reads and writes. *)
Module Backend.

(** Modelled from the spec: the roles of a user (section 3). *)
Inductive Role : Type := Admin | TeachingStaff | NonTeachingStaff.

(** Modelled from the spec: a user of section 3, kept under its
    username; the password is kept hashed. *)
Record User : Type := mkUser {
  password_hash : string;
  full_name : string;
  role : Role
}.

Inductive Status : Type := Active | Inactive.

(** Modelled from the spec: a student of section 3, kept under its id. *)
Record Student : Type := mkStudent {
  admission_number : string;
  student_name : string;
  status : Status;
  admission_date : string
}.

Inductive TransactionType : Type := FeePaymentType | OtherType.

(** Modelled from the spec: a transaction of section 3, with the
    academic year a fee payment is made for. *)
Record Transaction : Type := mkTransaction {
  transaction_id : Z;
  transaction_type : TransactionType;
  amount : Q;
  transaction_date : string;
  student_id : option Z;
  year_id : option Z;
  description : option string;
  reference_details : option string;
  recorded_by : string;
  payment_method : string
}.

(** Modelled from the spec: the relational store of section 3.  Users
    are keyed by their unique username, students and academic years by
    their ids, the fee schedule by the (student, year) pair; a session
    maps a bearer token to the user it was issued to; transactions are
    append-only. *)
Record Store : Type := mkStore {
  users : gmap string User;
  sessions : gmap string string;
  students : gmap Z Student;
  years : gmap Z string;
  fee_schedule : gmap (Z * Z) Q;
  transactions : list Transaction
}.

(** Modelled from the spec: the error taxonomy of section 7. *)
Inductive ErrorKind : Type :=
| AuthenticationFailure
| AuthorizationFailure
| ValidationFailure
| NotFound
| ServerFailure.

(** Modelled from the spec: what the specification leaves open, namely
    how passwords are hashed, how tokens are minted, and the status and
    the text of each kind of error. *)
Record Config : Type := mkConfig {
  hash : string -> string;
  mint : Store -> string -> string;
  error_status : ErrorKind -> Z;
  error_detail : ErrorKind -> string
}.

(** Modelled from the spec: by section 6 an error is a non-2xx response
    whose JSON body carries a human-readable [detail]. *)
Definition well_configured (cfg : Config) : Prop :=
  forall k,
    ((200 <=? error_status cfg k) && (error_status cfg k <=? 299))%Z = false
    /\ error_detail cfg k <> "".

(** *** Reading a request *)

Fixpoint strip_prefix (p s : string) : option string :=
  match p with
  | EmptyString => Some s
  | String a p' =>
      match s with
      | EmptyString => None
      | String b s' => if Ascii.eqb a b then strip_prefix p' s' else None
      end
  end.

Fixpoint split_on (c : ascii) (s : string) : list string :=
  match s with
  | EmptyString => [EmptyString]
  | String a rest =>
      if Ascii.eqb a c then EmptyString :: split_on c rest
      else match split_on c rest with
           | [] => [String a EmptyString]
           | h :: t => String a h :: t
           end
  end.

Definition is_digit (a : ascii) : bool :=
  (48 <=? N_of_ascii a)%N && (N_of_ascii a <=? 57)%N.

Fixpoint parse_digits (acc : Z) (s : string) : option Z :=
  match s with
  | EmptyString => Some acc
  | String a rest =>
      if is_digit a
      then parse_digits (10 * acc + (Z.of_N (N_of_ascii a) - 48)) rest
      else None
  end.

(** Modelled from the spec: the [{id}] and [{year_id}] segments of the
    routes of section 6, read as non-empty decimal numerals. *)
Definition parse_id (s : string) : option Z :=
  match s with
  | EmptyString => None
  | _ => parse_digits 0 s
  end.

Inductive Endpoint : Type :=
| PostLogin
| PostSignup
| PostFeePayment
| GetStudentDetails (id : string)
| GetStudentFeeSummary (id year : string)
| GetTransactionHistory (query : string).

(** Modelled from the spec: the routing table of section 6.  A request
    without a method is a GET, as [fetch] sends it. *)
Definition route (req : Request) : option Endpoint :=
  match strip_prefix API_BASE_URL (url req) with
  | None => None
  | Some target =>
      let post := String.eqb (default "GET" (method req)) "POST" in
      let get := String.eqb (default "GET" (method req)) "GET" in
      match split_on "?" target with
      | [] => None
      | path :: query =>
          match split_on "/" path with
          | [e; a] =>
              if negb (String.eqb e "") then None
              else if post && String.eqb a "login" then Some PostLogin
              else if post && String.eqb a "signup" then Some PostSignup
              else None
          | [e; a; b] =>
              if negb (String.eqb e "") then None
              else if post && String.eqb a "transactions" && String.eqb b "fee-payment"
              then Some PostFeePayment
              else if get && String.eqb a "transactions" && String.eqb b "history"
              then Some (GetTransactionHistory (join "?" query))
              else None
          | [e; a; id; b] =>
              if get && String.eqb e "" && String.eqb a "students" && String.eqb b "details"
              then Some (GetStudentDetails id)
              else None
          | [e; a; id; b; y] =>
              if get && String.eqb e "" && String.eqb a "students"
                 && String.eqb b "fee-summary"
              then Some (GetStudentFeeSummary id y)
              else None
          | _ => None
          end
      end
  end.

(** Modelled from the spec: bearer-token authorization.  The request
    is made on behalf of the user its token was issued to. *)
Definition authenticate (st : Store) (req : Request) : option string :=
  match header "Authorization" req with
  | None => None
  | Some h =>
      match strip_prefix "Bearer " h with
      | None => None
      | Some tok => sessions st !! tok
      end
  end.

(** *** Responses *)

Definition num (q : Q) : value := VNumber (Finite q).
Definition int (z : Z) : value := VNumber (Finite (inject_Z z)).
Definition optional {A : Type} (f : A -> value) (o : option A) : value :=
  match o with Some a => f a | None => VNull end.

Definition success (v : value) : Response := mkResponse 200 (inr v).

(** Modelled from the spec: the error contract of section 6, a non-2xx
    response whose JSON body carries [detail]. *)
Definition failure (cfg : Config) (k : ErrorKind) : Response :=
  mkResponse (error_status cfg k) (inr (VObject [("detail", VString (error_detail cfg k))])).

Definition status_text (s : Status) : string :=
  match s with Active => "Active" | Inactive => "Inactive" end.

Definition role_text (r : Role) : string :=
  match r with
  | Admin => "Admin"
  | TeachingStaff => "Teaching Staff"
  | NonTeachingStaff => "Non-Teaching Staff"
  end.

Definition type_text (t : TransactionType) : string :=
  match t with FeePaymentType => "Fee Payment" | OtherType => "Other" end.

Definition student_json (id : Z) (s : Student) : value :=
  VObject [("student_id", int id);
           ("admission_number", VString (admission_number s));
           ("full_name", VString (student_name s));
           ("status", VString (status_text (status s)));
           ("admission_date", VString (admission_date s))].

Definition transaction_json (t : Transaction) : value :=
  VObject [("transaction_id", int (transaction_id t));
           ("transaction_type", VString (type_text (transaction_type t)));
           ("amount", num (amount t));
           ("transaction_date", VString (transaction_date t));
           ("description", optional VString (description t));
           ("student_id", optional int (student_id t));
           ("recorded_by", VString (recorded_by t))].

(** *** Operations *)

(** Modelled from the spec: the credentials are correct when the user
    exists and the password hashes to the one on record. *)
Definition credentials_ok (cfg : Config) (st : Store) (u p : string) : bool :=
  match users st !! u with
  | Some account => String.eqb (password_hash account) (hash cfg p)
  | None => false
  end.

Definition open_session (st : Store) (tok u : string) : Store :=
  mkStore (users st) (<[tok := u]> (sessions st)) (students st) (years st)
    (fee_schedule st) (transactions st).

(** Modelled from the spec: login of section 4.1.  Correct credentials
    open a session and return its token as [access_token]; anything
    else is an authentication failure. *)
Definition login (cfg : Config) (st : Store) (req : Request) : Store * Response :=
  match body req with
  | FormData entries =>
      match assoc "username" entries, assoc "password" entries with
      | Some u, Some p =>
          if credentials_ok cfg st u p then
            let tok := mint cfg st u in
            (open_session st tok u, success (VObject [("access_token", VString tok)]))
          else (st, failure cfg AuthenticationFailure)
      | _, _ => (st, failure cfg ValidationFailure)
      end
  | _ => (st, failure cfg ValidationFailure)
  end.

Definition as_integer (v : value) : option Z :=
  match v with
  | VNumber (Finite q) =>
      if (Zpos (Qden (Qred q)) =? 1)%Z then Some (Qnum (Qred q)) else None
  | _ => None
  end.

Definition as_amount (v : value) : option Q :=
  match v with
  | VNumber (Finite q) => Some q
  | _ => None
  end.

Definition as_text (v : value) : option string :=
  match v with
  | VString s => Some s
  | _ => None
  end.

(** An optional field: absent, [null] or a string. *)
Definition as_optional_text (v : option value) : option (option string) :=
  match v with
  | None | Some VNull => Some None
  | Some (VString s) => Some (Some s)
  | Some _ => None
  end.

(** The fixed set of payment methods. *)
Definition payment_methods : list string :=
  ["Cash"; "Bank Transfer"; "Online"; "Cheque"].

Definition member (s : string) (l : list string) : bool :=
  existsb (String.eqb s) l.

(** A date is written [YYYY-MM-DD]. *)
Definition is_date (s : string) : bool :=
  match list_ascii_of_string s with
  | [y1; y2; y3; y4; d1; m1; m2; d2; a1; a2] =>
      forallb is_digit [y1; y2; y3; y4; m1; m2; a1; a2]
      && Ascii.eqb d1 "-" && Ascii.eqb d2 "-"
  | _ => false
  end.

Definition json_body (req : Request) : option (list (string * value)) :=
  match body req with
  | BodyText (JsonText (VObject props)) => Some props
  | _ => None
  end.

(** Modelled from the spec: the fee payment of section 4.2 as the
    service reads it from the request body. *)
Record Payment : Type := mkPayment {
  pay_student : Z;
  pay_amount : Q;
  pay_date : string;
  pay_method : string;
  pay_year : Z;
  pay_reference : option string;
  pay_description : option string
}.

Definition field {A : Type} (read : value -> option A) (k : string)
    (props : list (string * value)) : option A :=
  match lookup_prop k props with
  | Some v => read v
  | None => None
  end.

Definition read_payment (req : Request) : option Payment :=
  props ← json_body req;
  sid ← field as_integer "student_id" props;
  amt ← field as_amount "amount" props;
  date ← field as_text "transaction_date" props;
  meth ← field as_text "payment_method" props;
  yid ← field as_integer "year_id" props;
  ref ← as_optional_text (lookup_prop "reference_details" props);
  descr ← as_optional_text (lookup_prop "description" props);
  if is_date date && member meth payment_methods
  then Some (mkPayment sid amt date meth yid ref descr)
  else None.

(** Transaction ids are handed out in sequence. *)
Definition next_id (st : Store) : Z := Z.of_nat (length (transactions st)) + 1.

Definition fee_payment_transaction (st : Store) (who : string) (p : Payment)
  : Transaction :=
  mkTransaction (next_id st) FeePaymentType (pay_amount p) (pay_date p)
    (Some (pay_student p)) (Some (pay_year p)) (pay_description p)
    (pay_reference p) who (pay_method p).

Definition append_transaction (st : Store) (t : Transaction) : Store :=
  mkStore (users st) (sessions st) (students st) (years st) (fee_schedule st)
    (transactions st ++ [t]).

(** Modelled from the spec: fee payment recording of section 4.2: one
    transaction of type Fee Payment, attributed to the authenticated
    user, is appended. *)
Definition record_fee_payment (cfg : Config) (st : Store) (req : Request)
  : Store * Response :=
  match authenticate st req with
  | None => (st, failure cfg AuthorizationFailure)
  | Some who =>
      match read_payment req with
      | None => (st, failure cfg ValidationFailure)
      | Some p =>
          let t := fee_payment_transaction st who p in
          (append_transaction st t, success (transaction_json t))
      end
  end.

(** Modelled from the spec: student lookup of section 4.3. *)
Definition student_details (cfg : Config) (st : Store) (req : Request) (id : string)
  : Store * Response :=
  match authenticate st req with
  | None => (st, failure cfg AuthorizationFailure)
  | Some _ =>
      match parse_id id with
      | None => (st, failure cfg ValidationFailure)
      | Some sid =>
          match students st !! sid with
          | Some s => (st, success (student_json sid s))
          | None => (st, failure cfg NotFound)
          end
      end
  end.

(** A fee payment counts towards a (student, year) pair when it names
    both. *)
Definition paid_towards (sid yid : Z) (t : Transaction) : bool :=
  match transaction_type t, student_id t, year_id t with
  | FeePaymentType, Some s, Some y => ((s =? sid) && (y =? yid))%Z
  | _, _, _ => false
  end.

Definition sum (l : list Q) : Q := fold_right Qplus 0%Q l.

Definition amount_paid (st : Store) (sid yid : Z) : Q :=
  sum (List.map amount (List.filter (paid_towards sid yid) (transactions st))).

(** Modelled from the spec: the derived fee summary of section 3. *)
Record FeeSummary : Type := mkFeeSummary {
  summary_student_id : Z;
  summary_student : Student;
  academic_year : string;
  total_fees_due : Q;
  total_amount_paid : Q;
  pending_fees : Q
}.

(** Modelled from the spec: the fee summary of section 4.4, which
    fails if the student or the year does not exist or no fee schedule
    is defined for the pair; pending fees are due minus paid. *)
Definition summarize (st : Store) (sid yid : Z) : option FeeSummary :=
  s ← students st !! sid;
  label ← years st !! yid;
  due ← fee_schedule st !! (sid, yid);
  let paid := amount_paid st sid yid in
  Some (mkFeeSummary sid s label due paid (due - paid)%Q).

Definition summary_json (f : FeeSummary) : value :=
  VObject [("student_details", student_json (summary_student_id f) (summary_student f));
           ("academic_year", VString (academic_year f));
           ("total_fees_due", num (total_fees_due f));
           ("total_amount_paid", num (total_amount_paid f));
           ("pending_fees", num (pending_fees f))].

Definition fee_summary (cfg : Config) (st : Store) (req : Request) (id year : string)
  : Store * Response :=
  match authenticate st req with
  | None => (st, failure cfg AuthorizationFailure)
  | Some _ =>
      match parse_id id, parse_id year with
      | Some sid, Some yid =>
          match summarize st sid yid with
          | Some f => (st, success (summary_json f))
          | None => (st, failure cfg NotFound)
          end
      | _, _ => (st, failure cfg ValidationFailure)
      end
  end.

Definition read_role (s : string) : option Role :=
  if String.eqb s "Admin" then Some Admin
  else if String.eqb s "Teaching Staff" then Some TeachingStaff
  else if String.eqb s "Non-Teaching Staff" then Some NonTeachingStaff
  else None.

(** Modelled from the spec: user creation of sections 4.1 and 4.6,
    which fails on a username that exists and returns no token. *)
Definition signup (cfg : Config) (st : Store) (req : Request) : Store * Response :=
  match authenticate st req with
  | None => (st, failure cfg AuthorizationFailure)
  | Some _ =>
      match
        props ← json_body req;
        u ← field as_text "username" props;
        p ← field as_text "password" props;
        n ← field as_text "full_name" props;
        r ← field as_text "role" props ≫= read_role;
        Some (u, mkUser (hash cfg p) n r)
      with
      | None => (st, failure cfg ValidationFailure)
      | Some (u, account) =>
          match users st !! u with
          | Some _ => (st, failure cfg ValidationFailure)
          | None =>
              (mkStore (<[u := account]> (users st)) (sessions st) (students st)
                 (years st) (fee_schedule st) (transactions st),
               success (VObject [("username", VString u);
                                 ("full_name", VString (full_name account));
                                 ("role", VString (role_text (role account)))]))
          end
      end
  end.

Definition query_parameters (query : string) : list (string * string) :=
  List.map (fun kv => match split_on "=" kv with
                      | [] => (kv, "")
                      | k :: v => (k, join "=" v)
                      end)
           (split_on "&" query).

Definition dated_within (first last : string) (t : Transaction) : bool :=
  String.leb first (transaction_date t) && String.leb (transaction_date t) last.

(** Modelled from the spec: the transaction history of section 4.5:
    every transaction dated within the inclusive range, in the order
    of insertion. *)
Definition history (cfg : Config) (st : Store) (req : Request) (query : string)
  : Store * Response :=
  match authenticate st req with
  | None => (st, failure cfg AuthorizationFailure)
  | Some _ =>
      match assoc "start_date" (query_parameters query),
            assoc "end_date" (query_parameters query) with
      | Some first, Some last =>
          if is_date first && is_date last then
            (st, success (VArray (List.map transaction_json
                                    (List.filter (dated_within first last)
                                       (transactions st)))))
          else (st, failure cfg ValidationFailure)
      | _, _ => (st, failure cfg ValidationFailure)
      end
  end.

(** Modelled from the spec: the finance service as a whole, one
    request at a time (section 5). *)
Definition serve (cfg : Config) (st : Store) (req : Request) : Store * Response :=
  match route req with
  | Some PostLogin => login cfg st req
  | Some PostSignup => signup cfg st req
  | Some PostFeePayment => record_fee_payment cfg st req
  | Some (GetStudentDetails id) => student_details cfg st req id
  | Some (GetStudentFeeSummary id year) => fee_summary cfg st req id year
  | Some (GetTransactionHistory query) => history cfg st req query
  | None => (st, failure cfg NotFound)
  end.

(** The world of a client that reaches the service over a network
    that delivers: the store, the time the clock shows, and what the
    user does while a request is in flight. *)
Record World : Type := mkWorld {
  store : Store;
  now : string;
  meanwhile : list UserAction
}.

Definition env (cfg : Config) : Env World :=
  mkEnv
    (fun w req =>
       let (st, resp) := serve cfg (store w) req in
       (Resolved resp, mkWorld st (now w) (meanwhile w)))
    (fun w => (now w, w))
    meanwhile.


End Backend.

(** ** Reading a run *)

Definition requests (t : list Event) : list Exchange :=
  flat_map (fun e => match e with
                     | Requested x => [x]
                     | ClockRead _ => []
                     end) t.

Definition clock_reads (t : list Event) : list string :=
  flat_map (fun e => match e with
                     | Requested _ => []
                     | ClockRead iso => [iso]
                     end) t.

(** A request is accepted when it is answered with a 2xx status and a
    JSON body. *)
Definition accepted (o : FetchOutcome) : bool :=
  match o with
  | Resolved r => ok r && match json r with inr _ => true | inl _ => false end
  | Rejected _ => false
  end.

(** The guards of lines 174 and 191: the two lookups return at once when
    an id is missing. *)
Definition skipped (op : Operation) (s : State) : bool :=
  match op with
  | LookupStudent => is_empty (studentSearchId s)
  | GetFeeSummary => is_empty (summaryStudentId s) || is_empty (summaryYearId s)
  | _ => false
  end.

(** What the handler of an operation writes before it calls [apiCall]
    or [fetch]. *)
Definition started (op : Operation) (m : Machine) : Machine :=
  let m1 := on_ui (setError "") (on_ui (setLoading true) m) in
  match op with
  | Login | GetHistory => m1
  | RecordFeePayment | CreateUser => on_ui (setSuccess "") m1
  | LookupStudent => on_ui (setStudentDetails VNull) m1
  | GetFeeSummary => on_ui (setFeeSummary VNull) m1
  end.

(** What [apiCall] throws before it reaches [fetch], if it does: the
    [TypeError] of the template literal of line 61, for a token that has
    no primitive value.  Login does not go through [apiCall]. *)
Definition thrown_before_fetch {rt : Runtime} (op : Operation) (s : State)
  : option Exn :=
  match op with
  | Login => None
  | _ => match default_headers (token s) with
         | inl e => Some e
         | inr _ => None
         end
  end.

(** The message an operation falls back to when an error response
    carries no usable [detail]. *)
Definition fallback (op : Operation) : string :=
  match op with
  | Login => "Login failed"
  | _ => "An error occurred"
  end.

(** The machine after a failure with message [msg], from the machine
    the handler resumed on: [setError(err.message)] in the [catch] block
    and [setLoading(false)] in the [finally] block. *)
Definition failed (msg : string) (m : Machine) : Machine :=
  on_ui (setLoading false) (on_ui (setError msg) m).

(** The loading flag, the messages and the results, which only the
    handlers of the operations write, are the same in [m] and [m']. *)
Definition same_results (m m' : Machine) : Prop :=
  loading (ui m') = loading (ui m)
  /\ error (ui m') = error (ui m)
  /\ success (ui m') = success (ui m)
  /\ studentDetails (ui m') = studentDetails (ui m)
  /\ feeSummary (ui m') = feeSummary (ui m)
  /\ transactionHistory (ui m') = transactionHistory (ui m).

(** [c] occurs in [s]. *)
Fixpoint occurs (c : ascii) (s : string) : bool :=
  match s with
  | EmptyString => false
  | String a rest => Ascii.eqb a c || occurs c rest
  end.

(** The state of the component when it mounts: [tok] is what
    [localStorage.getItem('token')] returned, and [day], [first] and
    [last] are what the three readings of the clock gave. *)
Definition mounted (tok : value) (day first last : string) : State :=
  mkState tok VNull "dashboard" false "" ""
    (mkLoginData "" "")
    (mkFeePayment "" "" day "Cash" "" "" "")
    "" VNull VNull "" "" (VArray []) first last
    (mkNewUser "" "" "" "Teaching Staff").

(** ** A runtime to evaluate with

    The number conversions of ECMAScript on strings of bytes, with
    binary64 rounding; signed zeros are not told apart. *)
Module V8.


(** Round to the nearest integer, ties to even: [n / d] for [0 < d]. *)
Definition round_half_even (n d : Z) : Z :=
  let m := (n / d)%Z in
  let r := (n mod d)%Z in
  if (2 * r <? d)%Z then m
  else if (d <? 2 * r)%Z then (m + 1)%Z
  else if Z.even m then m else (m + 1)%Z.

(** The exponent [e] with [2^e <= n / d < 2^(e+1)], for positive [n], [d]. *)
Definition binary_exponent (n d : Z) : Z :=
  let e := (Z.log2 n - Z.log2 d)%Z in
  if (d * 2 ^ Z.max 0 e <=? n * 2 ^ Z.max 0 (- e))%Z then e else (e - 1)%Z.

(** The binary64 value nearest to [q]. *)
Definition to_double (q : Q) : number :=
  let n := Z.abs (Qnum q) in
  let d := Zpos (Qden q) in
  if (n =? 0)%Z then Finite 0
  else
    let e := Z.max (binary_exponent n d) (-1022) in
    let shift := (52 - e)%Z in
    let m := round_half_even (n * 2 ^ Z.max 0 shift) (d * 2 ^ Z.max 0 (- shift)) in
    let neg := (Qnum q <? 0)%Z in
    if (2 ^ 53 * 2 ^ 971 <=? m * 2 ^ Z.max 0 (- shift))%Z && (0 <=? - shift)%Z
    then Infinity neg
    else
      let v := Qred (Qmake (m * 2 ^ Z.max 0 (- shift)) (Z.to_pos (2 ^ Z.max 0 shift))) in
      Finite (if neg then Qopp v else v).

Definition code (a : ascii) : Z := Z.of_N (N_of_ascii a).

(** StrWhiteSpaceChar, for the characters a byte can hold. *)
Definition is_space (a : ascii) : bool :=
  ((9 <=? code a) && (code a <=? 13) || (code a =? 32) || (code a =? 160))%Z.

Fixpoint trim_start (s : string) : string :=
  match s with
  | String a rest => if is_space a then trim_start rest else s
  | EmptyString => s
  end.

Definition digit_of (radix : Z) (a : ascii) : option Z :=
  let c := code a in
  let d := if (48 <=? c)%Z && (c <=? 57)%Z then Some (c - 48)%Z
           else if (97 <=? c)%Z && (c <=? 122)%Z then Some (c - 87)%Z
           else if (65 <=? c)%Z && (c <=? 90)%Z then Some (c - 55)%Z
           else None in
  match d with
  | Some v => if (v <? radix)%Z then Some v else None
  | None => None
  end.

(** The longest prefix of digits: its value, how many digits it has, and
    the rest of the string. *)
Fixpoint digits (radix : Z) (acc : Z) (count : nat) (s : string) : Z * nat * string :=
  match s with
  | String a rest =>
      match digit_of radix a with
      | Some d => digits radix (radix * acc + d)%Z (S count) rest
      | None => (acc, count, s)
      end
  | EmptyString => (acc, count, s)
  end.

Definition sign (s : string) : bool * string :=
  match s with
  | String "-" rest => (true, rest)
  | String "+" rest => (false, rest)
  | _ => (false, s)
  end.

Definition signed (neg : bool) (q : Q) : Q := if neg then Qopp q else q.

(** [parseInt(s)] without a radix. *)
Definition parseInt (s : string) : number :=
  let (neg, s1) := sign (trim_start s) in
  let (radix, s2) :=
    match s1 with
    | String "0" (String "x" rest) | String "0" (String "X" rest) => (16%Z, rest)
    | _ => (10%Z, s1)
    end in
  match digits radix 0 0 s2 with
  | (_, O, _) => NaN
  | (n, _, _) => to_double (signed neg (inject_Z n))
  end.

(** The exponent part [e±ddd] of a decimal literal, if one is there. *)
Definition exponent (s : string) : Z :=
  match s with
  | String "e" rest | String "E" rest =>
      let (neg, r) := sign rest in
      match digits 10 0 0 r with
      | (_, O, _) => 0%Z
      | (n, _, _) => if neg then (- n)%Z else n
      end
  | _ => 0%Z
  end.

(** [parseFloat(s)]: the longest prefix that is a decimal literal. *)
Definition parseFloat (s : string) : number :=
  let (neg, s1) := sign (trim_start s) in
  if String.prefix "Infinity" s1 then Infinity neg
  else
    let '(whole, nw, s2) := digits 10 0 0 s1 in
    let '(num, nf, s3) :=
      match s2 with
      | String "." rest => digits 10 whole 0 rest
      | _ => (whole, O, s2)
      end in
    match nw, nf with
    | O, O => NaN
    | _, _ =>
        let e := (exponent s3 - Z.of_nat nf)%Z in
        to_double (signed neg (inject_Z num * Qpower 10 e))
    end.


(** Decimal digits of a natural number. *)
Fixpoint decimal_go (fuel : nat) (n : Z) (acc : string) : string :=
  let acc' := String (ascii_of_N (Z.to_N (48 + n mod 10))) acc in
  match fuel with
  | O => acc'
  | S f => if (n / 10 =? 0)%Z then acc' else decimal_go f (n / 10)%Z acc'
  end.

Definition decimal (n : Z) : string := decimal_go (Z.to_nat (Z.log2 n)) n "".

Fixpoint zeros (n : nat) : string :=
  match n with O => "" | S k => String "0" (zeros k) end.

(** The [n] with [10^(n-1) <= a < 10^n], searched downwards from [hi]. *)
Fixpoint decimal_exponent (fuel : nat) (hi : Z) (a : Q) : Z :=
  match fuel with
  | O => hi
  | S f => if Qle_bool (Qpower 10 (hi - 1)) a then hi else decimal_exponent f (hi - 1)%Z a
  end.

(** [s * 10^(n-k)] rounds to the double [a]. *)
Definition round_trips (a : Q) (s k n : Z) : bool :=
  match to_double (inject_Z s * Qpower 10 (n - k)) with
  | Finite b => Qeq_bool a b
  | _ => false
  end.

(** Of the two integers next to [a * 10^(k-n)], the nearer one that
    rounds back to [a] (the even one first when they are as near), with
    its exponent, if one of them does. *)
Definition nearest_digits (k n : Z) (a : Q) : option (Z * Z) :=
  let scaled := Qred (a * Qpower 10 (k - n)) in
  let den := Zpos (Qden scaled) in
  let lo := (Qnum scaled / den)%Z in
  let r2 := (2 * (Qnum scaled mod den))%Z in
  let lo_first := (r2 <? den)%Z || ((r2 =? den)%Z && Z.even lo) in
  let attempt (s : Z) : option (Z * Z) :=
    let '(s', n') :=
      if (s =? 10 ^ k)%Z then ((10 ^ (k - 1))%Z, (n + 1)%Z) else (s, n) in
    if round_trips a s' k n' then Some (s', n') else None in
  let '(first, second) := if lo_first then (lo, (lo + 1)%Z) else ((lo + 1)%Z, lo) in
  match attempt first with
  | Some r => Some r
  | None => attempt second
  end.

(** The digits [s], as few as possible ([k] of them, [k] from the given
    one up), and the exponent [n] such that [s * 10^(n-k)] rounds to the
    double [a]; of the candidates with [k] digits the one nearest to
    [a]. *)
Fixpoint shortest (fuel : nat) (k : Z) (n : Z) (a : Q) : Z * Z * Z :=
  match nearest_digits k n a with
  | Some (s, n') => (s, k, n')
  | None =>
      match fuel with
      | O =>
          let scaled := (a * Qpower 10 (k - n))%Q in
          (round_half_even (Qnum scaled) (Zpos (Qden scaled)), k, n)
      | S f => shortest f (k + 1)%Z n a
      end
  end.

(** Number::toString for a positive double. *)
Definition positive_to_string (a : Q) : string :=
  let '(s, k, n) := shortest 16 1 (decimal_exponent 640 309 a) a in
  let ds := decimal s in
  if (k <=? n)%Z && (n <=? 21)%Z then ds +:+ zeros (Z.to_nat (n - k))
  else if (0 <? n)%Z && (n <=? 21)%Z
  then substring 0 (Z.to_nat n) ds +:+ "." +:+ substring (Z.to_nat n) (Z.to_nat (k - n)) ds
  else if (-6 <? n)%Z && (n <=? 0)%Z then "0." +:+ zeros (Z.to_nat (- n)) +:+ ds
  else
    let e := (n - 1)%Z in
    let mantissa :=
      if (k =? 1)%Z then ds
      else substring 0 1 ds +:+ "." +:+ substring 1 (Z.to_nat (k - 1)) ds in
    mantissa +:+ "e" +:+ (if (e <? 0)%Z then "-" else "+") +:+ decimal (Z.abs e).

(** [Number.prototype.toString()] *)
Definition numberToString (x : number) : string :=
  match x with
  | NaN => "NaN"
  | Infinity false => "Infinity"
  | Infinity true => "-Infinity"
  | Finite q =>
      match to_double q with
      | Finite d =>
          if Qeq_bool d 0 then "0"
          else if Qle_bool 0 d then positive_to_string d
          else "-" +:+ positive_to_string (Qopp d)
      | Infinity false => "Infinity"
      | _ => "-Infinity"
      end
  end.


Definition nullAccessMessage (o : value) (k : string) : string :=
  "Cannot read properties of "
    +:+ (match o with VNull => "null" | _ => "undefined" end)
    +:+ " (reading '" +:+ k +:+ "')".

Definition primitiveMessage (o : value) : string :=
  "Cannot convert object to primitive value".

(** The message of React's development build. *)
Definition childMessage (o : value) : string :=
  "Objects are not valid as a React child (found: object with keys {"
    +:+ join ", " (match o with
                   | VObject ps => List.map fst ps
                   | _ => []
                   end)
    +:+ "}). If you meant to render a collection of children, use an array instead.".

End V8.

#[global] Instance v8 : Runtime := {
  parseFloat := V8.parseFloat;
  parseInt := V8.parseInt;
  numberToString := V8.numberToString;
  nullAccessMessage := V8.nullAccessMessage;
  primitiveMessage := V8.primitiveMessage;
  childMessage := V8.childMessage
}.

(** A world that answers every request in the same way, whose clock
    stands still and whose user does the same things during every
    request. *)
Definition scripted (o : FetchOutcome) (iso : string) (user : list UserAction)
  : Env unit :=
  mkEnv (fun w _ => (o, w)) (fun w => (iso, w)) (fun _ => user).

(** ** A small school to evaluate with *)

Module Demo.

Definition config : Backend.Config :=
  Backend.mkConfig
    (fun p => "hash:" +:+ p)
    (fun st u => "session-" +:+ u)
    (fun k => match k with
              | Backend.AuthenticationFailure | Backend.AuthorizationFailure => 401
              | Backend.ValidationFailure => 422
              | Backend.NotFound => 404
              | Backend.ServerFailure => 500
              end%Z)
    (fun k => match k with
              | Backend.AuthenticationFailure => "Incorrect username or password"
              | Backend.AuthorizationFailure => "Not authenticated"
              | Backend.ValidationFailure => "Invalid request"
              | Backend.NotFound => "Not found"
              | Backend.ServerFailure => "Internal server error"
              end).

(** One administrator with a session, one student, one academic year
    with fees of 1200 due, and one payment of 200.50 already made. *)
Definition school : Backend.Store :=
  Backend.mkStore
    {[ "admin" := Backend.mkUser "hash:secret" "Head Office" Backend.Admin ]}
    {[ "session-admin" := "admin" ]}
    {[ 42%Z := Backend.mkStudent "ADM-0042" "Asha Rao" Backend.Active "2021-06-01" ]}
    {[ 2024%Z := "2024-25" ]}
    {[ (42%Z, 2024%Z) := 1200%Q ]}
    [Backend.mkTransaction 1 Backend.FeePaymentType (401 # 2) "2024-04-10"
       (Some 42%Z) (Some 2024%Z) None None "admin" "Cash"].

(** While a request is in flight the user moves to the dashboard. *)
Definition world : Backend.World :=
  Backend.mkWorld school "2024-05-01T09:30:00.000Z" [ChooseTab "dashboard"].

(** The administrator is logged in and has filled in the forms; [id] is
    the student looked up. *)
Definition searching (id : string) : Machine :=
  mkMachine
    (mkState (VString "session-admin") (VObject [("username", VString "admin")])
       "fee-payment" false "" ""
       (mkLoginData "admin" "secret")
       (mkFeePayment "42" "500.00" "2024-05-01" "Cash" "" "May instalment" "2024")
       id VNull VNull "42" "2024" (VArray []) "2024-04-01" "2024-04-30"
       (mkNewUser "clerk" "pass" "Front Desk" "Non-Teaching Staff"))
    {[ "token" := Plain "session-admin" ]}.

Definition desk : Machine := searching "42".

(** Nobody is logged in; the login form is filled in. *)
Definition door (pass : string) : Machine :=
  mkMachine
    (mkState VNull VNull "dashboard" false "" ""
       (mkLoginData "admin" pass)
       (mkFeePayment "" "" "2024-05-01" "Cash" "" "" "")
       "" VNull VNull "" "" (VArray []) "2024-05-01" "2024-05-01"
       (mkNewUser "" "" "" "Teaching Staff"))
    ∅.

(** Error responses as a service may send them. *)
Definition not_found : FetchOutcome :=
  Resolved (mkResponse 404 (inr (VObject [("detail", VString "Student not found")]))).



Definition noon : string := "2024-05-01T12:00:00.000Z".

End Demo.

(** ** The rest of the component *)

(** [if (!token) return (...)]: without a token the component renders
    the login form and nothing else. *)
Inductive Page : Type := LoginPage | MainPage.

Definition page (s : State) : Page :=
  if truthy (token s) then MainPage else LoginPage.

(** [{error && (...)}] and [{success && (...)}]: the text of the red and
    of the green banner, when there is one. *)
Definition error_banner (s : State) : option string :=
  if is_empty (error s) then None else Some (error s).

Definition success_banner (s : State) : option string :=
  if is_empty (success s) then None else Some (success s).

(** [JSON.parse] on a text that was not produced by [JSON.stringify]
    here: a built-in of the runtime, taken as a parameter. *)
Class JsonParser : Type := {
  JSON_parse_text : string -> Exn + value
}.

(** [JSON.parse t] *)
Definition JSON_parse {jp : JsonParser} (t : Text) : Exn + value :=
  match t with
  | Plain s => JSON_parse_text s
  | JsonText v => inr v
  end.

(** [!t] for a stored text; the text of [JSON.stringify] is never
    empty. *)
Definition text_is_empty (t : Text) : bool :=
  match t with
  | Plain s => is_empty s
  | JsonText _ => false
  end.

(** [fetchUserInfo]: it has no [await] and runs to its end when called.
    [localStorage.getItem] gives [null] for a missing key; the
    [console.error] of the [catch] block writes nothing. *)
Definition fetchUserInfo {jp : JsonParser} (m : Machine) : Machine :=
  match localStorage m !! "user" with
  | None => m
  | Some storedUser =>
      if text_is_empty storedUser then m
      else match JSON_parse storedUser with
           | inr parsed => on_ui (setUser parsed) m
           | inl _ => handleLogout m
           end
  end.

(** [useEffect(() => { if (token) fetchUserInfo(); }, [token])]: what
    runs after the component mounts and after each render in which the
    token has changed.  React applies together the writes a handler
    makes without waiting in between, so the effect runs on the machine
    the handler leaves. *)
Definition token_effect {jp : JsonParser} (m : Machine) : Machine :=
  if truthy (token (ui m)) then fetchUserInfo m else m.

(** ** A [JSON.parse] to evaluate with

    The grammar of ECMA-404 on strings of bytes: an escape [\uXXXX] is
    written in UTF-8, code unit by code unit.  The properties of an
    object come in the order of [Object.keys]: the array indices first,
    in ascending order, then the other keys in the order of the text; a
    key that comes twice keeps its first place and its last value. *)
Module Json.

Local Open Scope Z_scope.

Definition is_ws (a : ascii) : bool :=
  let c := V8.code a in (c =? 32) || (c =? 9) || (c =? 10) || (c =? 13).

Fixpoint skip (s : string) : string :=
  match s with
  | String a rest => if is_ws a then skip rest else s
  | EmptyString => s
  end.

Definition byte (z : Z) : ascii := ascii_of_N (Z.to_N z).

(** UTF-8 of a code unit. *)
Definition utf8 (u : Z) : string :=
  if u <? 128 then String (byte u) ""
  else if u <? 2048
  then String (byte (192 + u / 64)) (String (byte (128 + u mod 64)) "")
  else String (byte (224 + u / 4096))
         (String (byte (128 + (u / 64) mod 64)) (String (byte (128 + u mod 64)) "")).

(** The character a two-character escape stands for. *)
Definition escape (c : Z) : option ascii :=
  if (c =? 34) || (c =? 92) || (c =? 47) then Some (byte c)
  else if c =? 98 then Some (byte 8)
  else if c =? 102 then Some (byte 12)
  else if c =? 110 then Some (byte 10)
  else if c =? 114 then Some (byte 13)
  else if c =? 116 then Some (byte 9)
  else None.

(** A string literal after its opening quote: its text and what follows
    the closing quote. *)
Fixpoint chars (s : string) : option (string * string) :=
  match s with
  | EmptyString => None
  | String a rest =>
      let c := V8.code a in
      if c =? 34 then Some ("", rest)
      else if c <? 32 then None
      else if c =? 92 then
        match rest with
        | EmptyString => None
        | String e rest1 =>
            if V8.code e =? 117 then
              match rest1 with
              | String h1 (String h2 (String h3 (String h4 rest2))) =>
                  match V8.digit_of 16 h1, V8.digit_of 16 h2,
                        V8.digit_of 16 h3, V8.digit_of 16 h4 with
                  | Some d1, Some d2, Some d3, Some d4 =>
                      match chars rest2 with
                      | Some (t, r) =>
                          Some ((utf8 (((d1 * 16 + d2) * 16 + d3) * 16 + d4) +:+ t)%string, r)
                      | None => None
                      end
                  | _, _, _, _ => None
                  end
              | _ => None
              end
            else
              match escape (V8.code e) with
              | Some b =>
                  match chars rest1 with
                  | Some (t, r) => Some (String b t, r)
                  | None => None
                  end
              | None => None
              end
        end
      else
        match chars rest with
        | Some (t, r) => Some (String a t, r)
        | None => None
        end
  end.

(** A number: an optional minus, an integer without a leading zero, an
    optional fraction and an optional exponent. *)
Definition number_of (s : string) : option (number * string) :=
  let (neg, s1) :=
    match s with
    | String a rest => if V8.code a =? 45 then (true, rest) else (false, s)
    | EmptyString => (false, s)
    end in
  let '(whole, nw, s2) := V8.digits 10 0 0 s1 in
  let leading_zero :=
    match s1 with
    | String a _ => (V8.code a =? 48) && negb (Nat.eqb nw 1)
    | EmptyString => false
    end in
  if Nat.eqb nw 0 || leading_zero then None
  else
    let fraction :=
      match s2 with
      | String a rest =>
          if V8.code a =? 46 then
            match V8.digits 10 whole 0 rest with
            | (_, O, _) => None
            | (n, k, r) => Some (n, k, r)
            end
          else Some (whole, O, s2)
      | EmptyString => Some (whole, O, s2)
      end in
    match fraction with
    | None => None
    | Some (num, nf, s3) =>
        let power :=
          match s3 with
          | String a rest =>
              if (V8.code a =? 101) || (V8.code a =? 69) then
                let (eneg, r) := V8.sign rest in
                match V8.digits 10 0 0 r with
                | (_, O, _) => None
                | (n, _, r') => Some (if eneg then - n else n, r')
                end
              else Some (0, s3)
          | EmptyString => Some (0, s3)
          end in
        match power with
        | None => None
        | Some (e, s4) =>
            Some (V8.to_double
                    (V8.signed neg (inject_Z num * Qpower 10 (e - Z.of_nat nf))),
                  s4)
        end
    end.

(** An array index as a property key. *)
Definition index_of (k : string) : option Z :=
  match V8.digits 10 0 0 k with
  | (n, S c, EmptyString) =>
      let canonical :=
        match k with
        | String a _ => negb (V8.code a =? 48) || Nat.eqb c 0
        | EmptyString => false
        end in
      if canonical && (n <? 4294967295) then Some n else None
  | _ => None
  end.

Fixpoint insert_index (n : Z) (p : string * value) (l : list (Z * (string * value)))
  : list (Z * (string * value)) :=
  match l with
  | [] => [(n, p)]
  | (n', p') :: rest =>
      if n <? n' then (n, p) :: l else (n', p') :: insert_index n p rest
  end.

(** The properties in the order of [Object.keys]. *)
Definition ordered (ps : list (string * value)) : list (string * value) :=
  let indexed :=
    fold_right (fun p acc =>
                  match index_of (fst p) with
                  | Some n => insert_index n p acc
                  | None => acc
                  end) [] ps in
  List.map snd indexed
    ++ List.filter (fun p => match index_of (fst p) with
                             | Some _ => false
                             | None => true
                             end) ps.

Definition object_of (members : list (string * value)) : value :=
  VObject (ordered (fold_left (fun ps p => set_prop (fst p) (snd p) ps) members [])).

(** A value, the items of an array after its bracket or a comma, and
    the members of an object after its brace or a comma; each with what
    follows it in the text. *)
Fixpoint value_of (fuel : nat) (s : string) {struct fuel}
  : option (value * string) :=
  match fuel with
  | O => None
  | S f =>
      match skip s with
      | EmptyString => None
      | String a rest as t =>
          let c := V8.code a in
          if c =? 34 then
            match chars rest with
            | Some (text, r) => Some (VString text, r)
            | None => None
            end
          else if c =? 91 then
            match skip rest with
            | String b r =>
                if V8.code b =? 93 then Some (VArray [], r)
                else match items_of f rest with
                     | Some (vs, r') => Some (VArray vs, r')
                     | None => None
                     end
            | EmptyString => None
            end
          else if c =? 123 then
            match skip rest with
            | String b r =>
                if V8.code b =? 125 then Some (VObject [], r)
                else match members_of f rest with
                     | Some (ms, r') => Some (object_of ms, r')
                     | None => None
                     end
            | EmptyString => None
            end
          else
            match t with
            | String "n" (String "u" (String "l" (String "l" r))) => Some (VNull, r)
            | String "t" (String "r" (String "u" (String "e" r))) => Some (VBool true, r)
            | String "f" (String "a" (String "l" (String "s" (String "e" r)))) =>
                Some (VBool false, r)
            | _ =>
                match number_of t with
                | Some (n, r) => Some (VNumber n, r)
                | None => None
                end
            end
      end
  end
with items_of (fuel : nat) (s : string) {struct fuel}
  : option (list value * string) :=
  match fuel with
  | O => None
  | S f =>
      match value_of f s with
      | Some (v, r) =>
          match skip r with
          | String a r' =>
              if V8.code a =? 44 then
                match items_of f r' with
                | Some (vs, r'') => Some (v :: vs, r'')
                | None => None
                end
              else if V8.code a =? 93 then Some ([v], r')
              else None
          | EmptyString => None
          end
      | None => None
      end
  end
with members_of (fuel : nat) (s : string) {struct fuel}
  : option (list (string * value) * string) :=
  match fuel with
  | O => None
  | S f =>
      match skip s with
      | String q r =>
          if V8.code q =? 34 then
            match chars r with
            | Some (k, r1) =>
                match skip r1 with
                | String c r2 =>
                    if V8.code c =? 58 then
                      match value_of f r2 with
                      | Some (v, r3) =>
                          match skip r3 with
                          | String a r4 =>
                              if V8.code a =? 44 then
                                match members_of f r4 with
                                | Some (ms, r5) => Some ((k, v) :: ms, r5)
                                | None => None
                                end
                              else if V8.code a =? 125 then Some ([(k, v)], r4)
                              else None
                          | EmptyString => None
                          end
                      | None => None
                      end
                    else None
                | EmptyString => None
                end
            | None => None
            end
          else None
      | EmptyString => None
      end
  end.

(** [JSON.parse text].  The message of the [SyntaxError], which differs
    between engines and which the component only hands to
    [console.error], is not modelled. *)
Definition parse (text : string) : Exn + value :=
  match value_of (2 * String.length text + 2) text with
  | Some (v, r) =>
      match skip r with
      | EmptyString => inr v
      | _ => inl (mkExn "SyntaxError" "")
      end
  | None => inl (mkExn "SyntaxError" "")
  end.

End Json.

#[global] Instance json_parser : JsonParser := {
  JSON_parse_text := Json.parse
}.

(** The three lookups, which send a GET. *)
Definition is_lookup (op : Operation) : bool :=
  match op with
  | LookupStudent | GetFeeSummary | GetHistory => true
  | _ => false
  end.

(** The endpoint an operation calls, as the handler spells it. *)
Definition endpoint (op : Operation) (s : State) : string :=
  match op with
  | Login => "/login"
  | RecordFeePayment => "/transactions/fee-payment"
  | LookupStudent => "/students/" +:+ studentSearchId s +:+ "/details"
  | GetFeeSummary =>
      "/students/" +:+ summaryStudentId s +:+ "/fee-summary/" +:+ summaryYearId s
  | GetHistory =>
      "/transactions/history?start_date=" +:+ historyStartDate s
        +:+ "&end_date=" +:+ historyEndDate s
  | CreateUser => "/signup"
  end.

(** The message an operation shows when its request was accepted, if it
    shows one. *)
Definition success_message (op : Operation) : option string :=
  match op with
  | Login => Some "Login successful!"
  | RecordFeePayment => Some "Fee payment recorded successfully!"
  | CreateUser => Some "User created successfully!"
  | _ => None
  end.

(** [localStorage.getItem(k)]: [null] when there is no item.  An item
    written with [JSON.stringify] is kept as the value it denotes, not
    as characters, so reading it back as a string is left undefined. *)
Definition getItem (k : string) (m : Machine) : option value :=
  match localStorage m !! k with
  | None => Some VNull
  | Some (Plain s) => Some (VString s)
  | Some (JsonText _) => None
  end.

(** Loading the page again over the same local storage: every
    [useState] takes its initial value, the token from
    [localStorage.getItem('token')], and the effect runs after the first
    render.  [day], [first] and [last] are the three readings of the
    clock. *)
Definition reload {jp : JsonParser} (day first last : string) (m : Machine)
  : option Machine :=
  tok ← getItem "token" m;
  Some (token_effect (mkMachine (mounted tok day first last) (localStorage m))).

(** [Welcome, {user?.username}] in the header: the value the header
    shows, or the [Error] of React when it is one React refuses. *)
Definition welcome {rt : Runtime} (s : State) : Exn + value :=
  let name :=
    match user s with
    | VUndefined | VNull => VUndefined
    | u => match get u "username" with
           | inr v => v
           | inl _ => VUndefined
           end
    end in
  and_then (children [name]) (fun _ => inr name).










(** ** Answers and machines to evaluate the rest with *)

Module Scene.

(** A whole number. *)
Definition whole (z : Z) : value := VNumber (Finite (inject_Z z)).

(** A login answered with a token. *)
Definition granted : FetchOutcome :=
  Resolved (mkResponse 200
    (inr (VObject [("access_token", VString "t-17");
                   ("token_type", VString "bearer")]))).

(** A 2xx answer to login that names its token otherwise. *)
Definition tokenless : FetchOutcome :=
  Resolved (mkResponse 200 (inr (VObject [("token", VString "t-17")]))).

(** Answers whose body is [null]. *)
Definition null_body : FetchOutcome := Resolved (mkResponse 200 (inr VNull)).

Definition null_error : FetchOutcome := Resolved (mkResponse 500 (inr VNull)).

(** A validation failure whose [detail] is a list with one object. *)
Definition invalid : FetchOutcome :=
  Resolved (mkResponse 422
    (inr (VObject [("detail",
                    VArray [VObject [("msg", VString "field required")]])]))).

(** Two transactions: a fee payment of student 42, and one that is for
    no student and has no description. *)
Definition two_rows : list value :=
  [VObject [("transaction_id", whole 1);
            ("transaction_type", VString "Fee Payment");
            ("amount", VNumber (Finite (401 # 2)));
            ("transaction_date", VString "2024-04-10");
            ("description", VString "April instalment");
            ("student_id", whole 42);
            ("recorded_by", VString "admin")];
   VObject [("transaction_id", whole 2);
            ("transaction_type", VString "Other");
            ("amount", whole 90);
            ("transaction_date", VString "2024-04-12");
            ("description", VString "");
            ("student_id", VNull);
            ("recorded_by", VString "admin")]].

Definition history : FetchOutcome :=
  Resolved (mkResponse 200 (inr (VArray two_rows))).


(** The desk after a payment was recorded and a student and a fee
    summary were looked up. *)
Definition busy : Machine :=
  on_ui (setFeeSummary (VObject [("pending_fees", whole 0)]))
    (on_ui (setStudentDetails (VObject [("full_name", VString "Asha Rao")]))
       (on_ui (setSuccess "Fee payment recorded successfully!") Demo.desk)).

(** The desk over a local storage whose user item is damaged. *)
Definition damaged : Machine := setItem "user" (Plain "{oops") Demo.desk.

(** An object that cannot be written as text: what [JSON.parse] makes
    of [{"toString": 1}]. *)
Definition odd : value := VObject [("toString", whole 1)].

(** A login answered with such a token, and an error with such a
    detail. *)
Definition odd_login : FetchOutcome :=
  Resolved (mkResponse 200 (inr (VObject [("access_token", odd)]))).

Definition odd_detail : FetchOutcome :=
  Resolved (mkResponse 422 (inr (VObject [("detail", odd)]))).

(** The desk as that login leaves it: the token is the object. *)
Definition stuck : Machine := on_ui (setToken odd) Demo.desk.

(** The desk over a local storage whose user item was written by
    another page: the text of an object with the username "clerk". *)
Definition quote : string := String (ascii_of_nat 34) "".

Definition foreign_user : string :=
  "{" +:+ quote +:+ "username" +:+ quote +:+ ": "
      +:+ quote +:+ "clerk" +:+ quote +:+ "}".

Definition visited : Machine := setItem "user" (Plain foreign_user) Demo.desk.

(** A fee payment that was recorded. *)
Definition recorded : FetchOutcome :=
  Resolved (mkResponse 200 (inr (VObject [("transaction_id", whole 2)]))).


End Scene.

(** * Properties of the client *)

Ltac open_handler :=
  unfold dispatch, handler, handleLogin, handleFeePayment, fetchStudentDetails,
    fetchFeeSummary, fetchTransactionHistory, createUser, apiCall, await_fetch,
    fetch, today, toISOString_now.

(** Follow a handler through every way it can throw before its request
    and every way the request can settle. *)
Ltac settle :=
  repeat match goal with
    | |- context [default_headers ?t] =>
        let e := fresh "e" in
        let own := fresh "own" in
        destruct (default_headers t) as [e | own] eqn:?; cbn
    | |- context [env_fetch ?e ?w ?q] =>
        let o := fresh "o" in
        let w1 := fresh "w" in
        destruct (env_fetch e w q) as [o w1] eqn:?; cbn
    | |- context [env_clock ?e ?w] =>
        let iso := fresh "iso" in
        let w1 := fresh "w" in
        destruct (env_clock e w) as [iso w1] eqn:?; cbn
    | |- context [match ?o with Rejected _ => _ | Resolved _ => _ end] =>
        let e := fresh "e" in
        let st := fresh "st" in
        let data := fresh "data" in
        destruct o as [e | [st [e | data]]]; cbn
    | |- context [check_ok _ ?r _] =>
        unfold check_ok; destruct (ok r) eqn:?; cbn
    | |- context [get ?d ?k] =>
        let e := fresh "e" in
        let v := fresh "v" in
        destruct (get d k) as [e | v] eqn:?; cbn
    | |- context [to_string ?v] =>
        let e := fresh "e" in
        let t := fresh "t" in
        destruct (to_string v) as [e | t] eqn:?; cbn
    end.

(** ** What the user cannot change *)

(** Nothing the user can do while a request is in flight writes the
    loading flag, the messages or the results. *)
Lemma perform_same_results (a : UserAction) (m : Machine) :
  same_results m (perform a m).
Proof.
  destruct m as [[] ls]; destruct a; repeat split.
Qed.

Lemma perform_all_same_results (l : list UserAction) (m : Machine) :
  same_results m (perform_all l m).
Proof.
  revert m. induction l as [|a l IH]; intros m; cbn.
  - repeat split.
  - destruct (perform_same_results a m) as (H1 & H2 & H3 & H4 & H5 & H6).
    destruct (IH (perform a m)) as (I1 & I2 & I3 & I4 & I5 & I6).
    repeat split; congruence.
Qed.

Lemma disabled_while_loading (op : Operation) (s : State) :
  loading s = true -> disabled op s = true.
Proof. intros H. destruct op; cbn; rewrite H; reflexivity. Qed.

(** Only an array or an object can fail to convert, and both are
    truthy. *)
Lemma unconvertible_truthy {rt : Runtime} (v : value) (e : Exn) :
  to_string v = inl e -> truthy v = true.
Proof.
  destruct v as [| |[]| | | |]; cbn; first [discriminate | reflexivity].
Qed.

(** [split(c)[0]] keeps a text without [c] whole and cuts any other
    text at its first [c]. *)
Lemma before_absent (c : ascii) (s : string) :
  occurs c s = false -> before c s = s.
Proof.
  induction s as [|a s IH]; cbn; [reflexivity|].
  destruct (Ascii.eqb a c); cbn; [discriminate|].
  intros H. rewrite IH by exact H. reflexivity.
Qed.

Lemma before_first (c : ascii) (d rest : string) :
  occurs c d = false -> before c (d +:+ String c rest) = d.
Proof.
  induction d as [|a d IH]; intros Hd.
  - change ("" +:+ String c rest) with (String c rest). cbn.
    rewrite Ascii.eqb_refl. reflexivity.
  - change (String a d +:+ String c rest) with (String a (d +:+ String c rest)).
    cbn in Hd |- *. destruct (Ascii.eqb a c); [discriminate|]. cbn in Hd.
    rewrite IH by exact Hd. reflexivity.
Qed.

Section Client.
Context {rt : Runtime} {W : Type} (env : Env W).

Lemma skipped_run (op : Operation) (m : Machine) (w : W) :
  skipped op (ui m) = true -> dispatch env op m w = mkRun m w [] (inr tt).
Proof.
  intros H. unfold dispatch.
  destruct op; try discriminate; unfold skipped in H; unfold handler.
  - unfold fetchStudentDetails. rewrite H. reflexivity.
  - unfold fetchFeeSummary. rewrite H. reflexivity.
Qed.

Lemma skipped_disabled (op : Operation) (s : State) :
  skipped op s = true -> disabled op s = true.
Proof.
  destruct op; try discriminate; unfold skipped, disabled; intros H;
    destruct (loading s); first [reflexivity | exact H].
Qed.

(** C10: student-detail lookup with an empty student id, and fee-summary
    lookup with an empty student id or an empty academic year id, return
    at once: no request is issued and the whole machine (loading, error,
    results, every other state and the local storage) is as it was. *)
Theorem guarded_lookups_are_noops (op : Operation) (m : Machine) (w : W) :
  (op = LookupStudent /\ studentSearchId (ui m) = "")
  \/ (op = GetFeeSummary
      /\ (summaryStudentId (ui m) = "" \/ summaryYearId (ui m) = "")) ->
  dispatch env op m w = mkRun m w [] (inr tt).
Proof.
  intros H. apply skipped_run.
  destruct H as [[-> H] | [-> [H | H]]]; unfold skipped; rewrite H;
    try reflexivity.
  apply orb_true_r.
Qed.


(** C9: when the fee-payment request is accepted the form is reset to
    its defaults (every text field empty, the payment method "Cash", the
    date the day the clock shows: of the text [new Date().toISOString()]
    gives, a date, a "T" and a time, the date), and when the sign-up
    request is accepted the new-user form is reset to its defaults (the
    role "Teaching Staff", every other field empty); these are the
    values the forms have when the component mounts.  When the request
    fails, in whatever way, or is not made because [apiCall] throws
    before it, the handler does not touch the form: it holds what was
    entered, including what the user typed while waiting. *)
Theorem forms_reset_on_success_only (m : Machine) (w : W) :
  (let r := dispatch env RecordFeePayment m w in
   match thrown_before_fetch RecordFeePayment (ui m) with
   | Some e =>
       requests (trace r) = []
       /\ clock_reads (trace r) = []
       /\ feePayment (ui (final r)) = feePayment (ui m)
   | None =>
       exists x,
         requests (trace r) = [x]
         /\ feePayment (ui (shown x)) = feePayment (ui m)
         /\ resumed x = perform_all (env_user env w) (shown x)
         /\ if accepted (outcome x)
            then exists iso,
                clock_reads (trace r) = [iso]
                /\ feePayment (ui (final r))
                   = mkFeePayment "" "" (before "T" iso) "Cash" "" "" ""
                /\ (forall day time,
                      iso = day +:+ "T" +:+ time ->
                      occurs "T" day = false ->
                      feePayment (ui (final r))
                      = mkFeePayment "" "" day "Cash" "" "" "")
                /\ (occurs "T" iso = false ->
                    feePayment (ui (final r))
                    = mkFeePayment "" "" iso "Cash" "" "" "")
                /\ forall tok first last,
                    feePayment (ui (final r))
                    = feePayment (mounted tok (before "T" iso) first last)
            else clock_reads (trace r) = []
                 /\ feePayment (ui (final r)) = feePayment (ui (resumed x))
   end)
  /\ (let r := dispatch env CreateUser m w in
      match thrown_before_fetch CreateUser (ui m) with
      | Some e =>
          requests (trace r) = []
          /\ newUser (ui (final r)) = newUser (ui m)
      | None =>
          exists x,
            requests (trace r) = [x]
            /\ newUser (ui (shown x)) = newUser (ui m)
            /\ resumed x = perform_all (env_user env w) (shown x)
            /\ if accepted (outcome x)
               then newUser (ui (final r)) = mkNewUser "" "" "" "Teaching Staff"
                    /\ forall tok day first last,
                        newUser (ui (final r)) = newUser (mounted tok day first last)
               else newUser (ui (final r)) = newUser (ui (resumed x))
      end).
Proof.
  split; cbv zeta; unfold thrown_before_fetch; open_handler; cbn; settle.
  all: try (destruct m as [[] ls]; repeat split; reflexivity).
  all: eexists; split; [reflexivity|]; cbn.
  all: split; [destruct m as [[] ls]; reflexivity|].
  all: split; [reflexivity|].
  all: match goal with
       | |- context [perform_all ?l ?m0] => destruct (perform_all l m0) as [[] ls']
       end.
  all: unfold accepted; cbn; rewrite ?andb_false_r, ?andb_true_r.
  all: repeat match goal with H : ok _ = _ |- _ => rewrite H end; cbn.
  all: eauto.
  eexists. split; [reflexivity|]. split; [reflexivity|].
  split; [|split; [|reflexivity]].
  - intros day time -> Hday.
    change ("T" +:+ time) with (String "T" time).
    rewrite (before_first _ _ _ Hday). reflexivity.
  - intros Hiso. rewrite (before_absent _ _ Hiso). reflexivity.
Qed.

(** C5, amended: every operation but login goes through [apiCall], and
    the request it makes carries [Authorization: Bearer <token>], with
    the token as text, exactly when a token is held; this includes the
    request to /signup.  Only the request to /login carries no such
    header.  A token that cannot be written as text makes [apiCall]
    throw before any request is made. *)
Theorem bearer_on_all_but_login (op : Operation) (m : Machine) (w : W) :
  skipped op (ui m) = false ->
  let r := dispatch env op m w in
  match op with
  | Login =>
      exists x,
        requests (trace r) = [x] /\ header "Authorization" (request x) = None
  | _ =>
      if truthy (token (ui m)) then
        match to_string (token (ui m)) with
        | inr t =>
            exists x,
              requests (trace r) = [x]
              /\ header "Authorization" (request x) = Some ("Bearer " +:+ t)
        | inl e => requests (trace r) = []
        end
      else
        exists x,
          requests (trace r) = [x] /\ header "Authorization" (request x) = None
  end.
Proof.
  intros Hs. cbv zeta.
  destruct op; unfold skipped in Hs; open_handler; try rewrite Hs;
    unfold default_headers;
    try (destruct (truthy (token (ui m)));
         [destruct (to_string (token (ui m))) as [e | t]|]);
    cbn; settle;
    first [reflexivity | eexists; split; reflexivity].
Qed.


End Client.
(** * Properties of the client against the finance service *)

Section Service.
Context {rt : Runtime} (cfg : Backend.Config) (Hcfg : Backend.well_configured cfg).

Lemma split_on_absent (c : ascii) (s : string) :
  occurs c s = false -> Backend.split_on c s = [s].
Proof.
  induction s as [|a s IH]; cbn; [reflexivity|].
  intros H. apply orb_false_iff in H as [Ha Hs].
  rewrite Ha, (IH Hs). reflexivity.
Qed.

Lemma split_on_first (c : ascii) (s rest : string) :
  occurs c s = false -> Backend.split_on c (s +:+ String c rest) = s :: Backend.split_on c rest.
Proof.
  induction s as [|a s IH].
  - intros _. change ("" +:+ String c rest) with (String c rest). cbn.
    rewrite Ascii.eqb_refl. reflexivity.
  - cbn. intros H. apply orb_false_iff in H as [Ha Hs].
    change (String a s +:+ String c rest) with (String a (s +:+ String c rest)).
    cbn. rewrite Ha, (IH Hs). reflexivity.
Qed.

Lemma occurs_app (c : ascii) (s t : string) :
  occurs c (s +:+ t) = occurs c s || occurs c t.
Proof.
  induction s as [|a s IH]; [reflexivity|].
  change (String a s +:+ t) with (String a (s +:+ t)). cbn.
  rewrite IH. apply orb_assoc.
Qed.

Lemma parse_digits_occurs (c : ascii) (acc : Z) (s : string) (n : Z) :
  Backend.is_digit c = false -> Backend.parse_digits acc s = Some n -> occurs c s = false.
Proof.
  intros Hc. revert acc. induction s as [|a s IH]; cbn; intros acc H; [reflexivity|].
  destruct (Backend.is_digit a) eqn:Ha; [|discriminate].
  rewrite (IH _ H), orb_false_r.
  destruct (Ascii.eqb_spec a c) as [->|]; [congruence|reflexivity].
Qed.

Lemma parse_id_occurs (c : ascii) (s : string) (n : Z) :
  Backend.is_digit c = false -> Backend.parse_id s = Some n -> occurs c s = false.
Proof.
  intros Hc. destruct s; [discriminate|]. apply parse_digits_occurs, Hc.
Qed.

Lemma parse_id_not_empty (s : string) (n : Z) :
  Backend.parse_id s = Some n -> is_empty s = false.
Proof. destruct s; [discriminate | reflexivity]. Qed.

Lemma route_details (id : string) (n : Z) hs b :
  Backend.parse_id id = Some n ->
  Backend.route (mkRequest (API_BASE_URL +:+ "/students/" +:+ id +:+ "/details") None hs b)
  = Some (Backend.GetStudentDetails id).
Proof.
  intros H.
  pose proof (parse_id_occurs "/" _ _ eq_refl H) as Hs.
  pose proof (parse_id_occurs "?" _ _ eq_refl H) as Hq.
  unfold Backend.route. cbn [url method default].
  change (Backend.strip_prefix API_BASE_URL (API_BASE_URL +:+ "/students/" +:+ id +:+ "/details"))
    with (Some ("/students/" +:+ id +:+ "/details")).
  cbv beta iota.
  rewrite split_on_absent.
  2:{ rewrite !occurs_app, Hq. reflexivity. }
  change (Backend.split_on "/" ("/students/" +:+ id +:+ "/details"))
    with ("" :: "students" :: Backend.split_on "/" (id +:+ String "/" "details")).
  rewrite (split_on_first _ _ _ Hs). reflexivity.
Qed.


(** A request built by [apiCall] for a user who holds the token [tok] is
    made on behalf of the owner of the session. *)
Lemma bearer_headers (tok : string) :
  tok <> "" ->
  default_headers (VString tok)
  = inr [("Content-Type", "application/json"); ("Authorization", "Bearer " +:+ tok)].
Proof.
  intros Hne. destruct tok; [congruence|]. reflexivity.
Qed.

Lemma bearer_authenticates (st : Backend.Store) (tok : string) u meth b :
  Backend.authenticate st
    (mkRequest u meth
       (Some [("Content-Type", "application/json"); ("Authorization", "Bearer " +:+ tok)])
       b)
  = Backend.sessions st !! tok.
Proof. reflexivity. Qed.

Lemma failure_not_ok (k : Backend.ErrorKind) : ok (Backend.failure cfg k) = false.
Proof. apply (Hcfg k). Qed.

Lemma failure_not_accepted (k : Backend.ErrorKind) :
  accepted (Resolved (Backend.failure cfg k)) = false.
Proof. unfold accepted. rewrite failure_not_ok. reflexivity. Qed.

Lemma failure_detail (k : Backend.ErrorKind) :
  get (VObject [("detail", VString (Backend.error_detail cfg k))]) "detail"
  = inr (VString (Backend.error_detail cfg k)).
Proof. reflexivity. Qed.

Lemma shown_detail (k : Backend.ErrorKind) (fb : string) :
  to_string (js_or (VString (Backend.error_detail cfg k)) (VString fb))
  = inr (Backend.error_detail cfg k).
Proof.
  unfold js_or. destruct (Hcfg k) as [_ Hne].
  destruct (Backend.error_detail cfg k); [congruence | reflexivity].
Qed.

(** C7: the student record is cleared to [null] before the lookup request
    is issued, nothing the user does while waiting brings one back, and
    it is still [null] after any lookup that fails, so no student card
    is rendered, be it that the request was not accepted or that
    [apiCall] threw before making it; and for a logged-in user who looks
    up an id that no student has, the service answers with its not-found
    error, which is the message shown, and nothing of a record. *)
Theorem unknown_student_shows_no_record :
  (forall (W : Type) (env : Env W) (m : Machine) (w : W),
      skipped LookupStudent (ui m) = false ->
      let r := dispatch env LookupStudent m w in
      studentDetails (ui (started LookupStudent m)) = VNull
      /\ match thrown_before_fetch LookupStudent (ui m) with
         | Some e =>
             requests (trace r) = []
             /\ studentDetails (ui (final r)) = VNull
             /\ student_card_shown (ui (final r)) = false
         | None =>
             exists x,
               requests (trace r) = [x]
               /\ shown x = started LookupStudent m
               /\ studentDetails (ui (resumed x)) = VNull
               /\ (accepted (outcome x) = false ->
                   studentDetails (ui (final r)) = VNull
                   /\ student_card_shown (ui (final r)) = false)
         end)
  /\ (forall (st : Backend.Store) (now : string) (acts : list UserAction)
             (m : Machine) (tok who : string) (n : Z),
         token (ui m) = VString tok -> tok <> "" ->
         Backend.sessions st !! tok = Some who ->
         Backend.parse_id (studentSearchId (ui m)) = Some n ->
         Backend.students st !! n = None ->
         let r := dispatch (Backend.env cfg) LookupStudent m
                    (Backend.mkWorld st now acts) in
         exists x,
           requests (trace r) = [x]
           /\ outcome x = Resolved (Backend.failure cfg Backend.NotFound)
           /\ error (ui (final r)) = Backend.error_detail cfg Backend.NotFound
           /\ studentDetails (ui (final r)) = VNull
           /\ student_card_shown (ui (final r)) = false
           /\ Backend.store (world r) = st).
Proof.
  split.
  - intros W env m w Hs. cbv zeta. unfold skipped in Hs.
    split; [destruct m as [[] ls]; reflexivity|].
    unfold thrown_before_fetch, started.
    open_handler. rewrite Hs. cbn. settle.
    { destruct m as [[] ls]. repeat split. }
    all: eexists; split; [reflexivity|]; cbn.
    all: split; [reflexivity|].
    all: match goal with
         | |- context [perform_all ?l ?m0] =>
             assert (Hres : studentDetails (ui (perform_all l m0)) = VNull)
               by (rewrite (proj1 (proj2 (proj2 (proj2 (perform_all_same_results l m0)))));
                   destruct m as [[] ls]; reflexivity);
             destruct (perform_all l m0) as [[] ls']
         end.
    all: split; [exact Hres|]; cbn in Hres; subst.
    all: unfold accepted; cbn; rewrite ?andb_false_r, ?andb_true_r.
    all: repeat match goal with H : ok _ = _ |- _ => rewrite H end.
    all: first [discriminate | intros _; split; reflexivity].
  - intros st now acts m tok who n Htok Hne Hsess Hid Hnone. cbv zeta.
    open_handler. rewrite (parse_id_not_empty _ _ Hid). cbn.
    rewrite Htok, (bearer_headers _ Hne). cbn.
    unfold Backend.serve. rewrite (route_details _ _ _ _ Hid).
    unfold Backend.student_details.
    rewrite bearer_authenticates, Hsess.
    rewrite Hid, Hnone. cbn. unfold check_ok. rewrite failure_not_ok. cbn.
    rewrite shown_detail. cbn.
    match goal with
    | |- context [perform_all ?l ?m0] =>
        assert (Hres : studentDetails (ui (perform_all l m0)) = VNull)
          by (rewrite (proj1 (proj2 (proj2 (proj2 (perform_all_same_results l m0)))));
              destruct m as [[] ls]; reflexivity);
        destruct (perform_all l m0) as [[] ls']
    end.
    cbn in Hres. subst.
    eexists. repeat split; reflexivity.
Qed.

(** C4: login posts the username and the password as form data, with no
    headers.  With correct credentials the service returns an access
    token; the client keeps it as [token], stores it in the local storage
    under "token", and stores under "user" an object that holds the
    username and nothing else.  With incorrect credentials the response
    is an authentication failure: no session is opened, the handler
    leaves the token and the local storage alone, and the error shown is
    the non-empty detail of the failure. *)
Theorem login_stores_token_and_username
    (st : Backend.Store) (now : string) (acts : list UserAction) (m : Machine) :
  let u := login_username (loginData (ui m)) in
  let p := login_password (loginData (ui m)) in
  let r := dispatch (Backend.env cfg) Login m (Backend.mkWorld st now acts) in
  exists x,
    requests (trace r) = [x]
    /\ request x
       = mkRequest (API_BASE_URL +:+ "/login") (Some "POST") None
           (FormData [("username", u); ("password", p)])
    /\ token (ui (shown x)) = token (ui m)
    /\ localStorage (shown x) = localStorage m
    /\ if Backend.credentials_ok cfg st u p
       then
         let tok := Backend.mint cfg st u in
         outcome x
         = Resolved (Backend.success (VObject [("access_token", VString tok)]))
         /\ Backend.sessions (Backend.store (world r)) !! tok = Some u
         /\ token (ui (final r)) = VString tok
         /\ user (ui (final r)) = VObject [("username", VString u)]
         /\ localStorage (final r)
            = <["user" := JsonText (VObject [("username", VString u)])]>
                (<["token" := Plain tok]> (localStorage (resumed x)))
       else
         outcome x = Resolved (Backend.failure cfg Backend.AuthenticationFailure)
         /\ accepted (outcome x) = false
         /\ Backend.store (world r) = st
         /\ token (ui (final r)) = token (ui (resumed x))
         /\ localStorage (final r) = localStorage (resumed x)
         /\ error (ui (final r)) = Backend.error_detail cfg Backend.AuthenticationFailure
         /\ error (ui (final r)) <> "".
Proof.
  cbv zeta. open_handler. cbn.
  unfold Backend.serve.
  change (Backend.route _) with (Some Backend.PostLogin). cbv beta iota.
  unfold Backend.login. cbn.
  destruct (Backend.credentials_ok cfg st _ _) eqn:Hc; cbn.
  - eexists. split; [reflexivity|]. cbn. split; [reflexivity|].
    split; [destruct m as [[] ls]; reflexivity|].
    split; [reflexivity|].
    match goal with
    | |- context [perform_all ?l ?m0] => destruct (perform_all l m0) as [[] ls']
    end.
    repeat split; try reflexivity. apply lookup_insert_eq.
  - unfold check_ok. rewrite failure_not_ok. cbn.
    rewrite shown_detail.
    eexists. split; [reflexivity|]. cbn. split; [reflexivity|].
    split; [destruct m as [[] ls]; reflexivity|].
    split; [reflexivity|].
    match goal with
    | |- context [perform_all ?l ?m0] => destruct (perform_all l m0) as [[] ls']
    end.
    repeat split; try reflexivity;
      [apply failure_not_accepted | apply (Hcfg Backend.AuthenticationFailure)].
Qed.

(** C3: the fee-payment request carries the form with [amount] replaced
    by [parseFloat] of its text and [student_id] and [year_id] by
    [parseInt] of theirs, as JSON (where a number that is not finite is
    written [null]); when the service accepts it, exactly one transaction
    is appended, of type Fee Payment and recorded by the user the bearer
    token belongs to; otherwise none is.  No submission sends anything
    else: when [apiCall] throws before the request, nothing is sent and
    nothing is recorded. *)
Theorem fee_payment_coerces_and_records_once
    (st : Backend.Store) (now : string) (acts : list UserAction) (m : Machine) :
  let f := feePayment (ui m) in
  let r := dispatch (Backend.env cfg) RecordFeePayment m (Backend.mkWorld st now acts) in
  match thrown_before_fetch RecordFeePayment (ui m) with
  | Some e =>
      requests (trace r) = []
      /\ Backend.store (world r) = st
  | None =>
      exists x,
        requests (trace r) = [x]
        /\ url (request x) = API_BASE_URL +:+ "/transactions/fee-payment"
        /\ method (request x) = Some "POST"
        /\ body (request x)
           = BodyText
               (JsonText
                  (VObject
                     [("student_id", json_number (parseInt (student_id f)));
                      ("amount", json_number (parseFloat (amount f)));
                      ("transaction_date", VString (transaction_date f));
                      ("payment_method", VString (payment_method f));
                      ("reference_details", VString (reference_details f));
                      ("description", VString (description f));
                      ("year_id", json_number (parseInt (year_id f)))]))
        /\ if accepted (outcome x)
           then exists who t,
               Backend.authenticate st (request x) = Some who
               /\ Backend.transactions (Backend.store (world r))
                  = Backend.transactions st ++ [t]
               /\ Backend.transaction_type t = Backend.FeePaymentType
               /\ Backend.recorded_by t = who
           else Backend.transactions (Backend.store (world r)) = Backend.transactions st
  end.
Proof.
  cbv zeta. unfold thrown_before_fetch. open_handler.
  destruct (default_headers (token (ui m))) as [e | own]; cbn.
  { split; reflexivity. }
  unfold Backend.serve.
  change (Backend.route _) with (Some Backend.PostFeePayment). cbv beta iota.
  unfold Backend.record_fee_payment.
  destruct (Backend.authenticate st _) as [who|] eqn:Hauth; cbv beta iota.
  - match goal with
    | |- context [Backend.read_payment ?q] =>
        destruct (Backend.read_payment q) as [p|] eqn:Hp; cbn
    end.
    + eexists. do 4 (split; [reflexivity|]).
      cbn. exists who. eexists. rewrite Hauth. repeat split; reflexivity.
    + unfold check_ok. rewrite failure_not_ok. cbn. rewrite shown_detail. cbn.
      eexists. do 4 (split; [reflexivity|]).
      cbn [outcome]. rewrite failure_not_accepted. reflexivity.
  - cbn. unfold check_ok. rewrite failure_not_ok. cbn. rewrite shown_detail. cbn.
    eexists. do 4 (split; [reflexivity|]).
    cbn [outcome]. rewrite failure_not_accepted. reflexivity.
Qed.

Lemma next_id_append (st : Backend.Store) (t : Backend.Transaction) :
  Backend.next_id (Backend.append_transaction st t) = (Backend.next_id st + 1)%Z.
Proof.
  unfold Backend.next_id, Backend.append_transaction. cbn.
  rewrite length_app. cbn. lia.
Qed.

(** C2: recording a fee payment is not idempotent.  Submitting the same
    form with the same token a second time sends a request equal to the
    first one, whose only headers are the content type and the bearer
    token, and when the service accepted the first it accepts the second:
    two transactions are appended, equal but for their ids, which are
    distinct. *)
Theorem resubmission_creates_two_transactions
    (st : Backend.Store) (now : string) (acts : list UserAction) (m1 m2 : Machine) :
  feePayment (ui m1) = feePayment (ui m2) ->
  token (ui m1) = token (ui m2) ->
  let r1 := dispatch (Backend.env cfg) RecordFeePayment m1 (Backend.mkWorld st now acts) in
  let r2 := dispatch (Backend.env cfg) RecordFeePayment m2 (world r1) in
  forall x1,
    requests (trace r1) = [x1] ->
    accepted (outcome x1) = true ->
    exists x2 t1 t2,
      requests (trace r2) = [x2]
      /\ request x2 = request x1
      /\ inr <$> headers (request x1) = Some (default_headers (token (ui m1)))
      /\ accepted (outcome x2) = true
      /\ Backend.transactions (Backend.store (world r2))
         = Backend.transactions st ++ [t1; t2]
      /\ Backend.transaction_id t1 <> Backend.transaction_id t2
      /\ t2 = Backend.mkTransaction (Backend.transaction_id t1 + 1)
                (Backend.transaction_type t1) (Backend.amount t1)
                (Backend.transaction_date t1) (Backend.student_id t1)
                (Backend.year_id t1) (Backend.description t1)
                (Backend.reference_details t1) (Backend.recorded_by t1)
                (Backend.payment_method t1).
Proof.
  intros Hf Ht. destruct m1 as [[] ls1], m2 as [[] ls2]. cbn in Hf, Ht. subst.
  cbv zeta. open_handler. cbn.
  match goal with
  | |- context [default_headers ?t] =>
      destruct (default_headers t) as [e | own]; cbn
  end.
  { intros ? [=]. }
  unfold Backend.serve.
  change (Backend.route _) with (Some Backend.PostFeePayment). cbv beta iota.
  unfold Backend.record_fee_payment.
  match goal with
  | |- context [Backend.authenticate st ?q] =>
      set (req0 := q);
      destruct (Backend.authenticate st req0) as [who|] eqn:Hauth; cbv beta iota
  end.
  2:{ cbn. unfold check_ok. rewrite failure_not_ok. cbn. rewrite shown_detail. cbn.
      intros ? [= <-]. cbn [outcome]. rewrite failure_not_accepted. discriminate. }
  destruct (Backend.read_payment req0) as [p|] eqn:Hp; cbv beta iota.
  2:{ cbn. unfold check_ok. rewrite failure_not_ok. cbn. rewrite shown_detail. cbn.
      intros ? [= <-]. cbn [outcome]. rewrite failure_not_accepted. discriminate. }
  cbn. intros ? [= <-] _.
  change (Backend.authenticate (Backend.append_transaction st _) req0)
    with (Backend.authenticate st req0).
  rewrite Hauth. cbn.
  do 3 eexists. split; [reflexivity|]. cbn. split; [reflexivity|].
  split; [reflexivity|]. split; [reflexivity|].
  split; [rewrite <- app_assoc; reflexivity|].
  unfold Backend.fee_payment_transaction. cbn. rewrite next_id_append.
  split; [lia | reflexivity].
Qed.



End Service.

(** * The properties at the small school *)

Lemma demo_well_configured : Backend.well_configured Demo.config.
Proof. intros []; split; first [reflexivity | discriminate]. Qed.


(** Nobody has typed a student id yet: the lookup does nothing. *)
Lemma guarded_lookups_are_noops_witness :
  ((LookupStudent = LookupStudent /\ studentSearchId (ui (Demo.door "secret")) = "")
   \/ (LookupStudent = GetFeeSummary
       /\ (summaryStudentId (ui (Demo.door "secret")) = ""
           \/ summaryYearId (ui (Demo.door "secret")) = "")))
  /\ dispatch (Backend.env Demo.config) LookupStudent (Demo.door "secret") Demo.world
     = mkRun (Demo.door "secret") Demo.world [] (inr tt).
Proof.
  assert (H : (LookupStudent = LookupStudent
               /\ studentSearchId (ui (Demo.door "secret")) = "")
              \/ (LookupStudent = GetFeeSummary
                  /\ (summaryStudentId (ui (Demo.door "secret")) = ""
                      \/ summaryYearId (ui (Demo.door "secret")) = "")))
    by (left; split; reflexivity).
  split; [exact H|].
  exact (guarded_lookups_are_noops (Backend.env Demo.config) LookupStudent
           (Demo.door "secret") Demo.world H).
Defined.

(** C5, as stated, fails: the request that creates a user goes to
    /signup and carries the bearer token of the administrator. *)
Lemma signup_request_carries_bearer :
  exists x,
    requests (trace (dispatch (Backend.env Demo.config) CreateUser Demo.desk Demo.world))
    = [x]
    /\ url (request x) = "http://localhost:8000/signup"
    /\ header "Authorization" (request x) = Some "Bearer session-admin".
Proof. eexists. split; [vm_compute; reflexivity|]. split; reflexivity. Qed.

(** The administrator creates a user: the request carries the token. *)
Lemma bearer_on_all_but_login_witness :
  skipped CreateUser (ui Demo.desk) = false
  /\ exists x,
      requests (trace (dispatch (Backend.env Demo.config) CreateUser Demo.desk Demo.world))
      = [x]
      /\ header "Authorization" (request x) = Some "Bearer session-admin".
Proof.
  split; [reflexivity|].
  exact (bearer_on_all_but_login (Backend.env Demo.config) CreateUser Demo.desk
           Demo.world eq_refl).
Defined.



(** The administrator looks up student 7, whom the school does not have. *)
Lemma unknown_student_shows_no_record_witness :
  (Backend.well_configured Demo.config
   /\ token (ui (Demo.searching "7")) = VString "session-admin"
   /\ "session-admin" <> ""
   /\ Backend.sessions Demo.school !! "session-admin" = Some "admin"
   /\ Backend.parse_id (studentSearchId (ui (Demo.searching "7"))) = Some 7%Z
   /\ Backend.students Demo.school !! 7%Z = None)
  /\ let r := dispatch (Backend.env Demo.config) LookupStudent (Demo.searching "7")
                Demo.world in
     exists x,
       requests (trace r) = [x]
       /\ outcome x = Resolved (Backend.failure Demo.config Backend.NotFound)
       /\ error (ui (final r)) = "Not found"
       /\ studentDetails (ui (final r)) = VNull
       /\ student_card_shown (ui (final r)) = false
       /\ Backend.store (world r) = Demo.school.
Proof.
  split; [split; [exact demo_well_configured|];
          repeat split; first [reflexivity | discriminate]|].
  refine (proj2 (unknown_student_shows_no_record Demo.config demo_well_configured)
            Demo.school (Backend.now Demo.world) (Backend.meanwhile Demo.world)
            (Demo.searching "7") "session-admin" "admin" 7%Z
            eq_refl _ eq_refl eq_refl eq_refl).
  discriminate.
Defined.

(** The administrator logs in with the right password. *)
Lemma login_stores_token_and_username_witness :
  Backend.well_configured Demo.config
  /\ let r := dispatch (Backend.env Demo.config) Login (Demo.door "secret") Demo.world in
     exists x,
       requests (trace r) = [x]
       /\ request x
          = mkRequest "http://localhost:8000/login" (Some "POST") None
              (FormData [("username", "admin"); ("password", "secret")])
       /\ token (ui (shown x)) = VNull
       /\ localStorage (shown x) = ∅
       /\ outcome x
          = Resolved (Backend.success (VObject [("access_token", VString "session-admin")]))
       /\ Backend.sessions (Backend.store (world r)) !! "session-admin" = Some "admin"
       /\ token (ui (final r)) = VString "session-admin"
       /\ user (ui (final r)) = VObject [("username", VString "admin")]
       /\ localStorage (final r)
          = <["user" := JsonText (VObject [("username", VString "admin")])]>
              (<["token" := Plain "session-admin"]> (localStorage (resumed x))).
Proof.
  split; [exact demo_well_configured|].
  exact (login_stores_token_and_username Demo.config demo_well_configured
           Demo.school (Backend.now Demo.world) (Backend.meanwhile Demo.world)
           (Demo.door "secret")).
Defined.

(** The administrator records 500.00 paid by student 42 for 2024. *)
Lemma fee_payment_coerces_and_records_once_witness :
  Backend.well_configured Demo.config
  /\ let r := dispatch (Backend.env Demo.config) RecordFeePayment Demo.desk Demo.world in
     exists x,
       requests (trace r) = [x]
       /\ url (request x) = "http://localhost:8000/transactions/fee-payment"
       /\ method (request x) = Some "POST"
       /\ body (request x)
          = BodyText
              (JsonText
                 (VObject
                    [("student_id", VNumber (Finite 42));
                     ("amount", VNumber (Finite 500));
                     ("transaction_date", VString "2024-05-01");
                     ("payment_method", VString "Cash");
                     ("reference_details", VString "");
                     ("description", VString "May instalment");
                     ("year_id", VNumber (Finite 2024))]))
       /\ exists who t,
           Backend.authenticate Demo.school (request x) = Some who
           /\ Backend.transactions (Backend.store (world r))
              = Backend.transactions Demo.school ++ [t]
           /\ Backend.transaction_type t = Backend.FeePaymentType
           /\ Backend.recorded_by t = who.
Proof.
  split; [exact demo_well_configured|].
  destruct (fee_payment_coerces_and_records_once Demo.config demo_well_configured
              Demo.school (Backend.now Demo.world) (Backend.meanwhile Demo.world)
              Demo.desk)
    as (x & Hreq & Hurl & Hmethod & Hbody & Hrecord).
  assert (Hacc : accepted (outcome x) = true).
  { vm_compute in Hreq. injection Hreq as <-. reflexivity. }
  rewrite Hacc in Hrecord.
  exists x.
  split; [exact Hreq|]. split; [exact Hurl|]. split; [exact Hmethod|].
  split; [exact Hbody | exact Hrecord].
Defined.

(** The same payment submitted twice. *)
Lemma resubmission_creates_two_transactions_witness :
  (Backend.well_configured Demo.config
   /\ feePayment (ui Demo.desk) = feePayment (ui Demo.desk)
   /\ token (ui Demo.desk) = token (ui Demo.desk)
   /\ exists x,
       requests (trace (dispatch (Backend.env Demo.config) RecordFeePayment Demo.desk
                          Demo.world))
       = [x]
       /\ accepted (outcome x) = true)
  /\ exists t1 t2,
      Backend.transactions
        (Backend.store
           (world (dispatch (Backend.env Demo.config) RecordFeePayment Demo.desk
                     (world (dispatch (Backend.env Demo.config) RecordFeePayment
                               Demo.desk Demo.world)))))
      = Backend.transactions Demo.school ++ [t1; t2]
      /\ Backend.transaction_id t1 <> Backend.transaction_id t2.
Proof.
  assert (H : exists x,
             requests (trace (dispatch (Backend.env Demo.config) RecordFeePayment
                                Demo.desk Demo.world))
             = [x]
             /\ accepted (outcome x) = true)
    by (eexists; split; vm_compute; reflexivity).
  split;
    [split; [exact demo_well_configured | split; [reflexivity | split; [reflexivity | exact H]]]|].
  destruct H as (x & Hreq & Hacc).
  destruct (resubmission_creates_two_transactions Demo.config demo_well_configured
              Demo.school (Backend.now Demo.world) (Backend.meanwhile Demo.world)
              Demo.desk Demo.desk eq_refl eq_refl x Hreq Hacc)
    as (x2 & t1 & t2 & _ & _ & _ & _ & Htx & Hid & _).
  exists t1, t2. split; assumption.
Defined.



(** A payment recorded at noon on the first of May resets the date of
    the form to that day. *)
Lemma forms_reset_on_success_only_witness :
  let r := dispatch (scripted Scene.recorded Demo.noon []) RecordFeePayment
             Demo.desk tt in
  feePayment (ui (final r)) = mkFeePayment "" "" "2024-05-01" "Cash" "" "" "".
Proof.
  cbv zeta.
  destruct (forms_reset_on_success_only (scripted Scene.recorded Demo.noon [])
              Demo.desk tt) as [(x & Hreq & _ & _ & H) _].
  vm_compute in Hreq. injection Hreq as <-.
  destruct H as (iso & Hclock & _ & Hday & _).
  vm_compute in Hclock. injection Hclock as <-.
  exact (Hday "2024-05-01" "12:00:00.000Z" eq_refl eq_refl).
Defined.

(** A login answered with a token that cannot be written as text leaves
    the main page with that token, and from there no operation reaches
    the service. *)
Example unwritable_token_reaches_nothing :
  let r := dispatch (scripted Scene.odd_login Demo.noon []) Login
             (Demo.door "secret") tt in
  token (ui (final r)) = Scene.odd
  /\ page (ui (final r)) = MainPage
  /\ localStorage (final r) = ∅
  /\ forall op,
      op <> Login ->
      skipped op (ui Scene.stuck) = false
      /\ requests (trace (dispatch (scripted Scene.recorded Demo.noon []) op
                            Scene.stuck tt)) = []
      /\ error (ui (final (dispatch (scripted Scene.recorded Demo.noon []) op
                             Scene.stuck tt)))
         = "Cannot convert object to primitive value".
Proof.
  cbv zeta. do 3 (split; [vm_compute; reflexivity|]).
  intros [] H; first [congruence | repeat split; vm_compute; reflexivity].
Qed.

(** A user item that another page wrote is read back as it parses. *)
Example foreign_user_is_read_back :
  user (ui (token_effect Scene.visited)) = VObject [("username", VString "clerk")]
  /\ welcome (ui (token_effect Scene.visited)) = inr (VString "clerk")
  /\ localStorage (token_effect Scene.visited) = localStorage Scene.visited.
Proof. repeat split; vm_compute; reflexivity. Qed.

(** The scenario of section 8 of the specification: after a payment of
    500.00 for student 42 and year 2024 the amount paid has grown, and
    the pending fees have shrunk, by exactly 500. *)
Example payment_moves_summary_by_500 :
  fee_summary_card
    (ui (final (dispatch (Backend.env Demo.config) GetFeeSummary Demo.desk Demo.world)))
  = Some (inr (mkFeeSummaryCard (VString "Asha Rao") (VString "ADM-0042")
                 (VString "2024-25") (VString "Active")
                 (VNumber (Finite 1200)) (VNumber (Finite (401 # 2)))
                 (VNumber (Finite (1999 # 2)))))
  /\ fee_summary_card
       (ui (final (dispatch (Backend.env Demo.config) GetFeeSummary Demo.desk
                     (world (dispatch (Backend.env Demo.config) RecordFeePayment
                               Demo.desk Demo.world)))))
     = Some (inr (mkFeeSummaryCard (VString "Asha Rao") (VString "ADM-0042")
                    (VString "2024-25") (VString "Active")
                    (VNumber (Finite 1200)) (VNumber (Finite (1401 # 2)))
                    (VNumber (Finite (999 # 2))))).
Proof. split; vm_compute; reflexivity. Qed.

(** The reference runtime on the texts a number input can hold. *)
Example parse_examples :
  parseInt "42" = Finite 42
  /\ parseInt "1e3" = Finite 1
  /\ parseInt "" = NaN
  /\ parseFloat "500.00" = Finite 500
  /\ parseFloat "0.1" = Finite (3602879701896397 # 36028797018963968)
  /\ parseFloat "abc" = NaN
  /\ numberToString (parseFloat "0.1") = "0.1"
  /\ numberToString (parseInt "9007199254740993") = "9007199254740992".
Proof. repeat split; vm_compute; reflexivity. Qed.

(** With a wrong password nothing is stored. *)
Example wrong_password_stores_nothing :
  final (dispatch (Backend.env Demo.config) Login (Demo.door "guess") Demo.world)
  = failed "Incorrect username or password"
      (on_ui (setLoading true) (Demo.door "guess")).
Proof. vm_compute. reflexivity. Qed.

(** The user logs out while a payment is in flight: the payment is
    recorded all the same, and the handler finishes on the logged-out
    machine. *)
Example logout_while_paying :
  let r := dispatch (Backend.env Demo.config) RecordFeePayment Demo.desk
             (Backend.mkWorld Demo.school Demo.noon [ClickLogout]) in
  token (ui (final r)) = VNull
  /\ localStorage (final r) = ∅
  /\ loading (ui (final r)) = false
  /\ success (ui (final r)) = "Fee payment recorded successfully!"
  /\ length (Backend.transactions (Backend.store (world r))) = 2.
Proof. repeat split; vm_compute; reflexivity. Qed.

(** * More properties of the component *)

Section Requests.
Context {rt : Runtime} {W : Type} (env : Env W).

(** X1: [apiCall] composes its headers first: for a token that cannot
    be written as text it throws there, having done nothing.  Otherwise
    it issues one request, to the base URL followed by the endpoint,
    with the headers of the options or else its own, and writes neither
    the state nor the local storage; it returns the parsed body exactly
    when the response is 2xx with a JSON body, and throws in every other
    case. *)
Theorem apiCall_settles (s : State) (ep : string) (options : Options)
    (m : Machine) (w : W) :
  let r := run env (apiCall s ep options) m w in
  match default_headers (token s) with
  | inl e => r = mkRun m w [] (inl e)
  | inr own =>
      exists x,
        requests (trace r) = [x]
        /\ clock_reads (trace r) = []
        /\ request x
           = mkRequest (API_BASE_URL +:+ ep) (opt_method options)
               (Some (default own (opt_headers options)))
               (fetch_body (opt_body options))
        /\ shown x = m
        /\ resumed x = perform_all (env_user env w) m
        /\ final r = resumed x
        /\ if accepted (outcome x)
           then exists st data,
               outcome x = Resolved (mkResponse st (inr data)) /\ result r = inr data
           else exists e, result r = inl e
  end.
Proof.
  cbv zeta. unfold apiCall, await_fetch, fetch. cbn. settle.
  all: try reflexivity.
  all: eexists; do 6 (split; [reflexivity|]); unfold accepted; cbn.
  all: rewrite ?andb_false_r, ?andb_true_r.
  all: repeat match goal with H : ok _ = _ |- _ => rewrite H end; cbn; eauto.
Qed.

(** X2: The three lookups send a request without a method, which [fetch]
    sends as a GET, and without a body, to the endpoint spelled with the
    texts of the search fields as they are, and with the headers
    [apiCall] composes; when it cannot compose them, nothing is sent. *)
Theorem lookups_are_bare_gets (op : Operation) (m : Machine) (w : W) :
  is_lookup op = true ->
  skipped op (ui m) = false ->
  match default_headers (token (ui m)) with
  | inl e => requests (trace (dispatch env op m w)) = []
  | inr own =>
      exists x,
        requests (trace (dispatch env op m w)) = [x]
        /\ request x
           = mkRequest (API_BASE_URL +:+ endpoint op (ui m)) None (Some own) NoBody
  end.
Proof.
  intros Hl Hs.
  destruct op; try discriminate; unfold skipped in Hs; open_handler;
    try rewrite Hs; cbn; settle;
    first [reflexivity | eexists; split; reflexivity].
Qed.

(** X3: User creation posts the four fields of the form as they were typed,
    the password included, as one JSON object, with the headers
    [apiCall] composes; when it cannot compose them, nothing is sent. *)
Theorem signup_posts_the_form (m : Machine) (w : W) :
  match default_headers (token (ui m)) with
  | inl e => requests (trace (dispatch env CreateUser m w)) = []
  | inr own =>
      exists x,
        requests (trace (dispatch env CreateUser m w)) = [x]
        /\ request x
           = mkRequest (API_BASE_URL +:+ "/signup") (Some "POST") (Some own)
               (BodyText
                  (JsonText
                     (VObject [("username", VString (username (newUser (ui m))));
                               ("password", VString (password (newUser (ui m))));
                               ("full_name", VString (full_name (newUser (ui m))));
                               ("role", VString (role (newUser (ui m))))])))
  end.
Proof.
  open_handler. cbn. settle; first [reflexivity | eexists; split; reflexivity].
Qed.

(** X4: The button of an operation that is not disabled never meets the
    guard of its handler: the handler sets to work, and it issues its
    request unless [apiCall] throws on the token before, in which case
    the message of that exception is shown. *)
Theorem enabled_button_issues_request (op : Operation) (m : Machine) (w : W) :
  disabled op (ui m) = false ->
  let r := dispatch env op m w in
  loading (ui m) = false
  /\ skipped op (ui m) = false
  /\ match thrown_before_fetch op (ui m) with
     | Some e =>
         requests (trace r) = []
         /\ final r = failed (message e) (started op m)
     | None =>
         exists x,
           requests (trace r) = [x]
           /\ url (request x) = API_BASE_URL +:+ endpoint op (ui m)
           /\ shown x = started op m
     end.
Proof.
  intros Hd. cbv zeta.
  assert (Hs : skipped op (ui m) = false).
  { destruct (skipped op (ui m)) eqn:E; [|reflexivity].
    rewrite (skipped_disabled _ _ E) in Hd. discriminate. }
  split.
  { destruct (loading (ui m)) eqn:E; [|reflexivity].
    rewrite (disabled_while_loading _ _ E) in Hd. discriminate. }
  split; [exact Hs|].
  destruct op; unfold skipped in Hs; unfold thrown_before_fetch, started;
    open_handler; try rewrite Hs; cbn; settle;
    first [split; reflexivity | eexists; repeat split; reflexivity].
Qed.
End Requests.

Section Session.
Context {rt : Runtime} {jp : JsonParser} {W : Type} (env : Env W).

Lemma logout_storage (ls : gmap string Text) (k : string) :
  delete "user" (delete "token" ls) !! k
  = if bool_decide (k = "token" \/ k = "user") then None else ls !! k.
Proof.
  case_bool_decide as H.
  - destruct H as [-> | ->].
    + rewrite lookup_delete_ne by discriminate. apply lookup_delete_eq.
    + apply lookup_delete_eq.
  - rewrite !lookup_delete_ne; [reflexivity | |]; intros <-; tauto.
Qed.

(** X5: Logging out clears the session and nothing else: the token and the
    user are [null], the login page is rendered, the local storage has
    lost its "token" and "user" items and kept every other one; the
    forms, the messages, the loading flag and the results that were
    fetched stay in the state. *)
Theorem logout_clears_the_session_only (m : Machine) :
  let m' := handleLogout m in
  token (ui m') = VNull
  /\ user (ui m') = VNull
  /\ activeTab (ui m') = "dashboard"
  /\ page (ui m') = LoginPage
  /\ (forall k, localStorage m' !! k
                = if bool_decide (k = "token" \/ k = "user") then None
                  else localStorage m !! k)
  /\ same_results m m'
  /\ loginData (ui m') = loginData (ui m)
  /\ feePayment (ui m') = feePayment (ui m)
  /\ newUser (ui m') = newUser (ui m)
  /\ studentSearchId (ui m') = studentSearchId (ui m)
  /\ summaryStudentId (ui m') = summaryStudentId (ui m)
  /\ summaryYearId (ui m') = summaryYearId (ui m)
  /\ historyStartDate (ui m') = historyStartDate (ui m)
  /\ historyEndDate (ui m') = historyEndDate (ui m).
Proof.
  destruct m as [[] ls]. cbn.
  do 4 (split; [reflexivity|]).
  split; [intros k; apply logout_storage|].
  repeat split.
Qed.

(** X6: Logging out twice is logging out once. *)
Theorem logout_is_idempotent (m : Machine) :
  handleLogout (handleLogout m) = handleLogout m.
Proof.
  destruct m as [[] ls]. unfold handleLogout, removeItem, on_ui. cbn. f_equal.
  apply map_eq. intros k. rewrite !logout_storage.
  case_bool_decide; reflexivity.
Qed.

(** X7: A handler created after logout sends no [Authorization] header,
    whatever the local storage holds. *)
Theorem no_bearer_after_logout (op : Operation) (m : Machine) (w : W) :
  skipped op (ui (handleLogout m)) = false ->
  exists x,
    requests (trace (dispatch env op (handleLogout m) w)) = [x]
    /\ header "Authorization" (request x) = None.
Proof.
  intros Hs. destruct m as [[] ls].
  destruct op; unfold skipped in Hs; cbn in Hs; open_handler; cbn;
    try rewrite Hs; cbn; settle; (eexists; split; reflexivity).
Qed.

(** X8: Login takes every 2xx answer with a JSON body other than [null]
    for a success, whatever the body holds: the token becomes
    [data.access_token] and the main page is shown exactly when that
    token is truthy.  When the token can be written as text, the local
    storage gets that text under "token" and, under "user", the username
    that was submitted (not what the user may have typed since), and
    "Login successful!" is shown; an answer without [access_token]
    stores the text "undefined" and leaves the login page.  When the
    token cannot be written as text, [localStorage.setItem] throws after
    [setToken]: the token stays in the state, so the main page is shown,
    with the message of the exception, no user and nothing stored. *)
Theorem login_accepts_any_2xx (m : Machine) (w : W) :
  let r := dispatch env Login m w in
  let u := VObject [("username", VString (login_username (loginData (ui m))))] in
  exists x,
    requests (trace r) = [x]
    /\ forall st data tok,
        outcome x = Resolved (mkResponse st (inr data)) ->
        ok (mkResponse st (inr data)) = true ->
        get data "access_token" = inr tok ->
        token (ui (final r)) = tok
        /\ loading (ui (final r)) = false
        /\ page (ui (final r)) = (if truthy tok then MainPage else LoginPage)
        /\ match to_string tok with
           | inr text =>
               user (ui (final r)) = u
               /\ localStorage (final r)
                  = <["user" := JsonText u]>
                      (<["token" := Plain text]> (localStorage (resumed x)))
               /\ success_banner (ui (final r)) = Some "Login successful!"
               /\ error_banner (ui (final r)) = None
           | inl e =>
               user (ui (final r)) = user (ui (resumed x))
               /\ localStorage (final r) = localStorage (resumed x)
               /\ success (ui (final r)) = success (ui (resumed x))
               /\ error (ui (final r)) = message e
               /\ page (ui (final r)) = MainPage
           end
        /\ (tok = VUndefined ->
            localStorage (final r) !! "token" = Some (Plain "undefined")
            /\ page (ui (final r)) = LoginPage).
Proof.
  cbv zeta.
  assert (Herr : forall l, error (ui (perform_all l
                   (on_ui (setError "") (on_ui (setLoading true) m)))) = "").
  { intros l. rewrite (proj1 (proj2 (perform_all_same_results l _))).
    destruct m as [[] ls]. reflexivity. }
  open_handler. cbn. settle.
  all: eexists; split; [reflexivity|]; cbn.
  all: intros st' data' tok' Hout Hok Hget; inversion Hout; subst.
  all: try congruence.
  all: match goal with
       | H : get _ "access_token" = inr _ |- _ =>
           rewrite H in Hget; injection Hget as <-
       end.
  all: match goal with
       | H : to_string _ = _ |- _ => rewrite H; pose proof H as Hconv
       end.
  all: match goal with
       | |- context [perform_all ?l ?m0] =>
           specialize (Herr l); destruct (perform_all l m0) as [[] ls']
       end.
  all: cbn in Herr; subst; cbn.
  - split; [reflexivity|]. split; [reflexivity|].
    unfold page. cbn. rewrite (unconvertible_truthy _ _ Hconv).
    split; [reflexivity|]. split; [repeat split|].
    intros ->. discriminate Hconv.
  - split; [reflexivity|]. split; [reflexivity|].
    split; [unfold page; cbn; reflexivity|].
    split; [repeat split|].
    intros ->. cbn in Hconv. injection Hconv as <-. split; [|reflexivity].
    rewrite lookup_insert_ne by discriminate. apply lookup_insert_eq.
Qed.

(** X9: A 2xx answer to login whose body is [null] is a failure: reading
    [access_token] throws, the message of the exception is shown and
    nothing is stored. *)
Theorem login_with_null_body_fails (m : Machine) (w : W) :
  let r := dispatch env Login m w in
  exists x,
    requests (trace r) = [x]
    /\ forall st,
        outcome x = Resolved (mkResponse st (inr VNull)) ->
        final r
        = failed (nullAccessMessage VNull
                    (if ok (mkResponse st (inr VNull)) then "access_token" else "detail"))
            (resumed x).
Proof.
  cbv zeta. open_handler. cbn. settle;
    (eexists; split; [reflexivity|]; cbn;
     intros st' Hout; inversion Hout; subst;
     repeat match goal with
       | H : ok _ = _ |- _ => rewrite H
       | H : get VNull _ = _ |- _ => cbn in H; inversion H; subst; clear H
       end;
     reflexivity).
Qed.

(** X10: Whatever login stored, logging out removes it: after a login,
    successful or not, followed by a logout, the token, the user and the
    local storage are what a logout alone would have left. *)
Theorem logout_undoes_login (m : Machine) (w : W) :
  let r := dispatch env Login m w in
  exists x,
    requests (trace r) = [x]
    /\ token (ui (handleLogout (final r))) = VNull
    /\ user (ui (handleLogout (final r))) = VNull
    /\ localStorage (handleLogout (final r)) = localStorage (handleLogout (resumed x)).
Proof.
  cbv zeta. open_handler. cbn. settle.
  all: eexists; split; [reflexivity|]; cbn.
  all: match goal with
     | |- context [perform_all ?l ?m0] => destruct (perform_all l m0) as [[] ls']
     end.
  all: split; [reflexivity|]; split; [reflexivity|]; cbn.
  all: try reflexivity.
  all: apply map_eq; intros k; rewrite !logout_storage;
     case_bool_decide as Hk; [reflexivity|];
     rewrite !lookup_insert_ne by (intros <-; apply Hk; auto); reflexivity.
Qed.
End Session.

Section Mount.
Context {rt : Runtime} {jp : JsonParser} {W : Type} (env : Env W).

Lemma setUser_same (m : Machine) : on_ui (setUser (user (ui m))) m = m.
Proof. destruct m as [[] ls]. reflexivity. Qed.

(** X11: The effect writes the user and nothing else, unless the stored user
    cannot be parsed and it logs out: the loading flag, the messages,
    the results and the forms are never touched, nothing is added to the
    local storage, and the token is either kept or the machine is the
    one logout leaves. *)
Theorem effect_writes_the_user_only (m : Machine) :
  let m' := token_effect m in
  same_results m m'
  /\ loginData (ui m') = loginData (ui m)
  /\ feePayment (ui m') = feePayment (ui m)
  /\ newUser (ui m') = newUser (ui m)
  /\ localStorage m' ⊆ localStorage m
  /\ ((token (ui m') = token (ui m) /\ activeTab (ui m') = activeTab (ui m)
       /\ localStorage m' = localStorage m)
      \/ m' = handleLogout m).
Proof.
  cbv zeta. unfold token_effect, fetchUserInfo.
  destruct (truthy (token (ui m)));
    [destruct (localStorage m !! "user") as [t|];
       [destruct (text_is_empty t); [|destruct (JSON_parse t)]|]|].
  all: destruct m as [[] ls]; cbn.
  all: repeat (split; [first [reflexivity | repeat split]|]).
  all: try (split; [reflexivity|]).
  all: try (left; repeat split; reflexivity).
  all: try (etransitivity; apply delete_subseteq).
  right. reflexivity.
Qed.

(** X12: A stored user that [JSON.parse] rejects logs the user out: with a
    truthy token and such an item, the effect leaves the machine of
    [handleLogout], so the login page is shown and both items are gone
    from the local storage. *)
Theorem corrupt_user_item_logs_out (m : Machine) (s : string) (e : Exn) :
  truthy (token (ui m)) = true ->
  localStorage m !! "user" = Some (Plain s) ->
  s <> "" ->
  JSON_parse_text s = inl e ->
  token_effect m = handleLogout m
  /\ page (ui (token_effect m)) = LoginPage
  /\ getItem "token" (token_effect m) = Some VNull
  /\ getItem "user" (token_effect m) = Some VNull.
Proof.
  intros Ht Hu Hs He.
  assert (E : token_effect m = handleLogout m).
  { unfold token_effect, fetchUserInfo. rewrite Ht, Hu. cbn.
    destruct s; [congruence|]. cbn. rewrite He. reflexivity. }
  rewrite E. split; [reflexivity|].
  destruct m as [[] ls]. unfold getItem. cbn.
  rewrite !logout_storage. repeat split.
Qed.

(** X13: Run on the machine left by a login that was taken for a success
    and stored its token, the effect changes nothing: the user it reads
    back from the local storage is the one login has just set. *)
Theorem effect_after_login_changes_nothing (m : Machine) (w : W) :
  let r := dispatch env Login m w in
  exists x,
    requests (trace r) = [x]
    /\ forall st data tok text,
        outcome x = Resolved (mkResponse st (inr data)) ->
        ok (mkResponse st (inr data)) = true ->
        get data "access_token" = inr tok ->
        to_string tok = inr text ->
        localStorage (final r) !! "token" = Some (Plain text)
        /\ token_effect (final r) = final r.
Proof.
  cbv zeta. open_handler. cbn. settle.
  all: eexists; split; [reflexivity|]; cbn.
  all: intros st' data' tok' text' Hout Hok Hget Hconv; inversion Hout; subst.
  all: try congruence.
  assert (text' = t) as -> by congruence.
  split.
  { cbn. rewrite lookup_insert_ne by discriminate. apply lookup_insert_eq. }
  unfold token_effect, fetchUserInfo. cbn -[lookup insert].
  destruct (truthy _); [|reflexivity].
  rewrite lookup_insert_eq. cbn -[lookup insert].
  match goal with
  | |- context [perform_all ?l ?m0] => destruct (perform_all l m0) as [[] ls']
  end.
  reflexivity.
Qed.

(** X14: Loading the page again after a login that was taken for a success:
    when the token was stored, it comes back as the text that was
    stored, so the main page is shown whenever that text is not empty,
    with the submitted username in the header.  A 2xx answer without
    [access_token] therefore leaves the login page now and opens the
    main page on the next load, with the text "undefined" for a token.
    When the token could not be written as text, nothing was stored and
    the page loads as it would have before the login. *)
Theorem reload_after_login (day first last : string) (m : Machine) (w : W) :
  let r := dispatch env Login m w in
  let name := VString (login_username (loginData (ui m))) in
  exists x,
    requests (trace r) = [x]
    /\ forall st data tok,
        outcome x = Resolved (mkResponse st (inr data)) ->
        ok (mkResponse st (inr data)) = true ->
        get data "access_token" = inr tok ->
        match to_string tok with
        | inr text =>
            exists m',
              reload day first last (final r) = Some m'
              /\ token (ui m') = VString text
              /\ localStorage m' = localStorage (final r)
              /\ (text <> "" ->
                  page (ui m') = MainPage
                  /\ user (ui m') = VObject [("username", name)]
                  /\ welcome (ui m') = inr name)
              /\ (tok = VUndefined ->
                  page (ui (final r)) = LoginPage
                  /\ page (ui m') = MainPage
                  /\ token (ui m') = VString "undefined")
        | inl e =>
            localStorage (final r) = localStorage (resumed x)
            /\ reload day first last (final r) = reload day first last (resumed x)
        end.
Proof.
  cbv zeta. open_handler. cbn. settle.
  all: eexists; split; [reflexivity|]; cbn.
  all: intros st' data' tok' Hout Hok Hget; inversion Hout; subst.
  all: try congruence.
  all: match goal with
       | H : get _ "access_token" = inr _ |- _ =>
           rewrite H in Hget; injection Hget as <-
       end.
  all: match goal with
       | H : to_string _ = _ |- _ => rewrite H; pose proof H as Hconv
       end.
  all: match goal with
       | |- context [perform_all ?l ?m0] => destruct (perform_all l m0) as [[] ls']
       end.
  - split; reflexivity.
  - unfold reload, getItem. cbn -[lookup insert].
    rewrite lookup_insert_ne by discriminate. rewrite lookup_insert_eq.
    cbn -[lookup insert]. eexists. split; [reflexivity|].
    unfold token_effect, fetchUserInfo, page, welcome. cbn -[lookup insert].
    rewrite lookup_insert_eq. cbn -[lookup insert].
    destruct t as [|a s]; cbn -[lookup insert].
    + split; [reflexivity|]. split; [reflexivity|].
      split; [congruence|]. intros ->. cbn in Hconv. discriminate.
    + split; [reflexivity|]. split; [reflexivity|].
      split; [intros _; repeat split|].
      intros ->. cbn in Hconv. injection Hconv as <- <-.
      repeat split.
Qed.

End Mount.

Section Results.
Context {rt : Runtime} {W : Type} (env : Env W).

(** X16: A lookup that fails leaves no card: the student card and the
    fee-summary card are taken down before [apiCall] is called, are not
    there while the request is in flight, and stay down when the request
    is not accepted or is not made at all, so a card on the screen never
    belongs to an earlier lookup that succeeded. *)
Theorem failed_lookup_leaves_no_card (op : Operation) (m : Machine) (w : W) :
  op = LookupStudent \/ op = GetFeeSummary ->
  skipped op (ui m) = false ->
  let r := dispatch env op m w in
  let card (s : State) :=
    match op with
    | LookupStudent => student_card_shown s
    | _ => bool_decide (fee_summary_card s <> None)
    end in
  match thrown_before_fetch op (ui m) with
  | Some e =>
      requests (trace r) = []
      /\ card (ui (final r)) = false
  | None =>
      exists x,
        requests (trace r) = [x]
        /\ card (ui (shown x)) = false
        /\ card (ui (resumed x)) = false
        /\ (accepted (outcome x) = false -> card (ui (final r)) = false)
  end.
Proof.
  intros Hop Hs. cbv zeta.
  assert (Hres : forall l m0,
             studentDetails (ui (perform_all l m0)) = studentDetails (ui m0)
             /\ feeSummary (ui (perform_all l m0)) = feeSummary (ui m0)).
  { intros l m0. destruct (perform_all_same_results l m0) as (_ & _ & _ & H4 & H5 & _).
    split; assumption. }
  destruct Hop as [-> | ->]; unfold skipped in Hs; unfold thrown_before_fetch;
    open_handler; rewrite Hs; cbn; settle.
  all: try (destruct m as [[] ls]; split; reflexivity).
  all: eexists; split; [reflexivity|]; cbn.
  all: unfold student_card_shown, fee_summary_card, accepted; cbn.
  all: rewrite ?andb_false_r, ?andb_true_r.
  all: repeat match goal with H : ok _ = _ |- _ => rewrite H end; cbn.
  all: match goal with
       | |- context [perform_all ?l ?m0] =>
           destruct (Hres l m0) as [H4 H5];
           destruct (perform_all l m0) as [[] ls']
       end.
  all: cbn in H4, H5; subst.
  all: destruct m as [[] ls]; cbn.
  all: repeat split; congruence.
Qed.

(** X17: The history is not cleared before the request: the rows of the
    previous search stay on the screen while the request is in flight,
    after it has failed and when it was not made.  When the request is
    accepted the history becomes the body of the answer, whatever it
    is. *)
Theorem failed_history_keeps_the_rows (m : Machine) (w : W) :
  let r := dispatch env GetHistory m w in
  match thrown_before_fetch GetHistory (ui m) with
  | Some e =>
      requests (trace r) = []
      /\ transactionHistory (ui (final r)) = transactionHistory (ui m)
  | None =>
      exists x,
        requests (trace r) = [x]
        /\ transactionHistory (ui (shown x)) = transactionHistory (ui m)
        /\ transactionHistory (ui (resumed x)) = transactionHistory (ui m)
        /\ if accepted (outcome x)
           then exists st data,
                  outcome x = Resolved (mkResponse st (inr data))
                  /\ transactionHistory (ui (final r)) = data
           else transactionHistory (ui (final r)) = transactionHistory (ui m)
  end.
Proof.
  cbv zeta. unfold thrown_before_fetch. open_handler. cbn. settle.
  all: try (destruct m as [[] ls]; split; reflexivity).
  all: eexists; split; [reflexivity|]; cbn.
  all: unfold accepted; cbn.
  all: rewrite ?andb_false_r, ?andb_true_r.
  all: repeat match goal with H : ok _ = _ |- _ => rewrite H end; cbn.
  all: match goal with
       | |- context [perform_all ?l ?m0] =>
           destruct (perform_all_same_results l m0) as (_ & _ & _ & _ & _ & H6);
           destruct (perform_all l m0) as [[] ls']
       end.
  all: cbn in H6; subst.
  all: destruct m as [[] ls]; cbn.
  all: repeat split; eauto.
Qed.







(** X19: Of the two banners, a fee payment and a user creation never leave
    both: the success message is cleared before [apiCall] is called, so
    afterwards there is the success message of the operation and no
    error when the request was accepted, and no success message when it
    was not accepted or not made. *)
Theorem submissions_leave_one_banner (op : Operation) (m : Machine) (w : W) :
  op = RecordFeePayment \/ op = CreateUser ->
  let r := dispatch env op m w in
  match thrown_before_fetch op (ui m) with
  | Some e =>
      requests (trace r) = []
      /\ success_banner (ui (final r)) = None
      /\ error (ui (final r)) = message e
  | None =>
      exists x,
        requests (trace r) = [x]
        /\ success_banner (ui (shown x)) = None
        /\ error_banner (ui (shown x)) = None
        /\ if accepted (outcome x)
           then success_banner (ui (final r)) = success_message op
                /\ error_banner (ui (final r)) = None
           else success_banner (ui (final r)) = None
  end.
Proof.
  intros Hop. cbv zeta.
  assert (Hmsg : forall l m0,
             error (ui (perform_all l m0)) = error (ui m0)
             /\ success (ui (perform_all l m0)) = success (ui m0)).
  { intros l m0. destruct (perform_all_same_results l m0) as (_ & H2 & H3 & _).
    split; assumption. }
  destruct Hop as [-> | ->]; unfold thrown_before_fetch; open_handler; cbn; settle.
  all: try (destruct m as [[] ls]; repeat split; reflexivity).
  all: eexists; split; [reflexivity|]; cbn.
  all: unfold accepted, success_banner, error_banner; cbn.
  all: rewrite ?andb_false_r, ?andb_true_r.
  all: repeat match goal with H : ok _ = _ |- _ => rewrite H end; cbn.
  all: match goal with
       | |- context [perform_all ?l ?m0] =>
           destruct (Hmsg l m0) as [H2 H3];
           destruct (perform_all l m0) as [[] ls']
       end.
  all: cbn in H2, H3; subst.
  all: destruct m as [[] ls]; cbn.
  all: repeat split; eauto.
Qed.

(** X20: Only a fee payment and a user creation clear the success message.
    A lookup never writes it, and login writes it only when it takes
    the answer for a success: an old "recorded successfully" stays on
    the screen during and after every lookup and every failed login. *)
Theorem old_success_message_stays (op : Operation) (m : Machine) (w : W) :
  is_lookup op = true \/ op = Login ->
  let r := dispatch env op m w in
  (forall x, In x (requests (trace r)) -> success (ui (shown x)) = success (ui m))
  /\ (success (ui (final r)) = success (ui m)
      \/ (op = Login /\ success (ui (final r)) = "Login successful!"))
  /\ (is_lookup op = true -> success (ui (final r)) = success (ui m))
  /\ (forall x, In x (requests (trace r)) -> accepted (outcome x) = false ->
      success (ui (final r)) = success (ui m)).
Proof.
  intros Hop. cbv zeta.
  destruct (skipped op (ui m)) eqn:Hs.
  { rewrite (skipped_run env _ _ w Hs). cbn. repeat split; tauto. }
  assert (Hop' : op = LookupStudent \/ op = GetFeeSummary \/ op = GetHistory \/ op = Login).
  { destruct op; cbn in Hop; destruct Hop; try discriminate; tauto. }
  clear Hop.
  destruct Hop' as [-> | [-> | [-> | ->]]]; unfold skipped in Hs; open_handler;
    try rewrite Hs; cbn; settle.
  all: unfold accepted; cbn.
  all: rewrite ?andb_false_r, ?andb_true_r.
  all: repeat match goal with H : ok _ = _ |- _ => rewrite H end; cbn.
  all: try match goal with
           | |- context [perform_all ?l ?m0] =>
               destruct (perform_all_same_results l m0) as (_ & _ & H3 & _);
               destruct (perform_all l m0) as [[] ls'];
               cbn in H3; subst
           end.
  all: destruct m as [[] ls]; cbn.
  all: repeat split;
         try (intros x Hx; contradiction);
         try (intros x [<- | []]; cbn; rewrite ?andb_true_r, ?andb_false_r;
              intros; first [reflexivity | discriminate | congruence]);
         try (intros; first [reflexivity | discriminate]);
         auto.
Qed.

(** X21: A truthy [detail] of any kind goes through [new Error(detail)],
    whose message is [String(detail)]: a detail that can be written as
    text is shown as that text, so the list with one plain object that a
    validation failure carries is shown as "[object Object]"; for a
    detail that cannot, an object with a [toString] of its own for one,
    the message of the [TypeError] of the conversion is shown instead.
    An error response whose body is [null] shows the message of the
    [TypeError] that reading [detail] raises. *)
Theorem detail_is_shown_as_text (op : Operation) (m : Machine) (w : W) :
  skipped op (ui m) = false ->
  let r := dispatch env op m w in
  match thrown_before_fetch op (ui m) with
  | Some e =>
      requests (trace r) = [] /\ final r = failed (message e) (started op m)
  | None =>
      exists x,
        requests (trace r) = [x]
        /\ (forall st body detail,
              outcome x = Resolved (mkResponse st (inr body)) ->
              ok (mkResponse st (inr body)) = false ->
              get body "detail" = inr detail ->
              truthy detail = true ->
              match to_string detail with
              | inr text => final r = failed text (resumed x)
              | inl e => final r = failed (message e) (resumed x)
              end
              /\ (forall ps,
                    detail = VArray [VObject ps] ->
                    lookup_prop "toString" ps = None ->
                    error_banner (ui (final r)) = Some "[object Object]")
              /\ (forall ps,
                    detail = VObject ps ->
                    lookup_prop "toString" ps <> None ->
                    error (ui (final r)) = primitiveMessage detail))
        /\ (forall st,
              outcome x = Resolved (mkResponse st (inr VNull)) ->
              ok (mkResponse st (inr VNull)) = false ->
              final r = failed (nullAccessMessage VNull "detail") (resumed x))
  end.
Proof.
  intros Hs. cbv zeta.
  destruct op; unfold skipped in Hs; unfold thrown_before_fetch, started;
    open_handler; try rewrite Hs; cbn; settle.
  all: try (split; reflexivity).
  all: eexists; split; [reflexivity|]; cbn.
  all: split;
         [ intros st' body' detail' Hout Hok Hd Ht; inversion Hout; subst
         | intros st' Hout Hok; inversion Hout; subst ].
  all: try congruence.
  all: try match goal with
           | H : get VNull "detail" = _ |- _ => cbn in H; inversion H; subst
           end.
  all: try reflexivity.
  all: match goal with
       | H : get _ "detail" = _ |- _ => rewrite H in Hd; injection Hd as ->
       end.
  all: match goal with
       | H : to_string (js_or _ _) = _ |- _ =>
           unfold js_or in H; rewrite Ht in H; rewrite H; pose proof H as Hconv
       end.
  all: split; [reflexivity|].
  all: match goal with
       | |- context [perform_all ?l ?m0] => destruct (perform_all l m0) as [[] ls']
       end.
  all: split; [intros ps -> Hps | intros ps -> Hps]; cbn in Hconv.
  all: destruct (lookup_prop "toString" ps); try congruence.
  all: inversion Hconv; subst; reflexivity.
Qed.


End Results.

Section Inputs.

Lemma before_prefix (c : ascii) (s : string) :
  exists rest, s = before c s +:+ rest.
Proof.
  induction s as [|a s [rest IH]]; cbn.
  - exists "". reflexivity.
  - destruct (Ascii.eqb a c).
    + eexists. reflexivity.
    + exists rest.
      change (String a (before c s) +:+ rest) with (String a (before c s +:+ rest)).
      rewrite <- IH. reflexivity.
Qed.

(** X23: [split('T')[0]] is the part of the text before its first "T": it
    holds no "T", the text starts with it, and it is the date when the
    text is a date, a "T" and anything more.  A text without a "T" is
    kept whole. *)
Theorem before_takes_the_date (c : ascii) (s : string) :
  occurs c (before c s) = false
  /\ (exists rest, s = before c s +:+ rest)
  /\ (occurs c s = false -> before c s = s)
  /\ (forall d rest, s = d +:+ String c rest -> occurs c d = false ->
      before c s = d).
Proof.
  split; [|split; [apply before_prefix|split]].
  - induction s as [|a s IH]; cbn; [reflexivity|].
    destruct (Ascii.eqb a c) eqn:E; cbn; [reflexivity|].
    rewrite E. exact IH.
  - induction s as [|a s IH]; cbn; [reflexivity|].
    destruct (Ascii.eqb a c); cbn; [discriminate|].
    intros H. rewrite IH by exact H. reflexivity.
  - intros d. revert s. induction d as [|a d IH]; intros s rest -> Hd.
    + change ("" +:+ String c rest) with (String c rest). cbn.
      rewrite Ascii.eqb_refl. reflexivity.
    + change (String a d +:+ String c rest) with (String a (d +:+ String c rest)).
      cbn in Hd |- *. destruct (Ascii.eqb a c); [discriminate|]. cbn in Hd.
      f_equal. apply (IH _ rest); [reflexivity | exact Hd].
Qed.

(** X24: Nothing the user does in the forms or on the tabs ends the session:
    as long as Logout is not clicked, the token, the user and the local
    storage stay as they are, like the loading flag, the messages and
    the results. *)
Theorem inputs_keep_the_session (l : list UserAction) (m : Machine) :
  Forall (fun a => a <> ClickLogout) l ->
  token (ui (perform_all l m)) = token (ui m)
  /\ user (ui (perform_all l m)) = user (ui m)
  /\ localStorage (perform_all l m) = localStorage m
  /\ page (ui (perform_all l m)) = page (ui m)
  /\ same_results m (perform_all l m).
Proof.
  intros Hl.
  assert (H : token (ui (perform_all l m)) = token (ui m)
              /\ user (ui (perform_all l m)) = user (ui m)
              /\ localStorage (perform_all l m) = localStorage m).
  { revert m. induction Hl as [|a l Ha _ IH]; intros m; cbn; [repeat split|].
    destruct (IH (perform a m)) as (I1 & I2 & I3). rewrite I1, I2, I3.
    destruct m as [[] ls]; destruct a; try congruence; repeat split. }
  destruct H as (H1 & H2 & H3).
  unfold page. rewrite H1.
  repeat split; try assumption; apply perform_all_same_results.
Qed.
End Inputs.

(** * The properties above on the small school *)

(** The history of April is asked for. *)
Lemma lookups_are_bare_gets_witness :
  is_lookup GetHistory = true
  /\ skipped GetHistory (ui Demo.desk) = false
  /\ exists x,
      requests (trace (dispatch (scripted Scene.history Demo.noon []) GetHistory
                         Demo.desk tt)) = [x]
      /\ request x
         = mkRequest
             "http://localhost:8000/transactions/history?start_date=2024-04-01&end_date=2024-04-30"
             None
             (Some [("Content-Type", "application/json");
                    ("Authorization", "Bearer session-admin")])
             NoBody.
Proof.
  split; [reflexivity|]. split; [reflexivity|].
  exact (lookups_are_bare_gets (scripted Scene.history Demo.noon []) GetHistory
           Demo.desk tt eq_refl eq_refl).
Defined.

(** The search button of the desk is enabled. *)
Lemma enabled_button_issues_request_witness :
  disabled LookupStudent (ui Demo.desk) = false
  /\ exists x,
      requests (trace (dispatch (scripted Demo.not_found Demo.noon []) LookupStudent
                         Demo.desk tt)) = [x]
      /\ url (request x) = "http://localhost:8000/students/42/details".
Proof.
  split; [reflexivity|].
  destruct (enabled_button_issues_request (scripted Demo.not_found Demo.noon [])
              LookupStudent Demo.desk tt eq_refl) as (_ & _ & x & Hreq & Hurl & _).
  exists x. split; [exact Hreq | exact Hurl].
Defined.

(** A history request from the desk after logout. *)
Lemma no_bearer_after_logout_witness :
  skipped GetHistory (ui (handleLogout Demo.desk)) = false
  /\ exists x,
      requests (trace (dispatch (scripted Scene.history Demo.noon []) GetHistory
                         (handleLogout Demo.desk) tt)) = [x]
      /\ header "Authorization" (request x) = None.
Proof.
  split; [reflexivity|].
  exact (no_bearer_after_logout (scripted Scene.history Demo.noon []) GetHistory
           Demo.desk tt eq_refl).
Defined.

(** A login answered 200 without [access_token], while the user types
    another name; and a login answered 200 with a token that cannot be
    written as text. *)
Lemma login_accepts_any_2xx_witness :
  (let r := dispatch (scripted Scene.tokenless Demo.noon [TypeLoginUsername "eve"])
              Login (Demo.door "secret") tt in
   token (ui (final r)) = VUndefined
   /\ user (ui (final r)) = VObject [("username", VString "admin")]
   /\ localStorage (final r) !! "token" = Some (Plain "undefined")
   /\ success_banner (ui (final r)) = Some "Login successful!"
   /\ page (ui (final r)) = LoginPage)
  /\ (let r := dispatch (scripted Scene.odd_login Demo.noon []) Login
                 (Demo.door "secret") tt in
      token (ui (final r)) = Scene.odd
      /\ page (ui (final r)) = MainPage
      /\ user (ui (final r)) = VNull
      /\ localStorage (final r) = ∅
      /\ error (ui (final r)) = "Cannot convert object to primitive value").
Proof.
  split; cbv zeta.
  - destruct (login_accepts_any_2xx
                (scripted Scene.tokenless Demo.noon [TypeLoginUsername "eve"])
                (Demo.door "secret") tt) as (x & Hreq & H).
    vm_compute in Hreq. injection Hreq as <-.
    destruct (H 200%Z (VObject [("token", VString "t-17")]) VUndefined
                eq_refl eq_refl eq_refl)
      as (Ht & _ & _ & (Hu & _ & Hs & _) & Hund).
    destruct (Hund eq_refl) as [Hst Hp].
    split; [exact Ht|]. split; [exact Hu|]. split; [exact Hst|].
    split; [exact Hs | exact Hp].
  - destruct (login_accepts_any_2xx (scripted Scene.odd_login Demo.noon [])
                (Demo.door "secret") tt) as (x & Hreq & H).
    vm_compute in Hreq. injection Hreq as <-.
    destruct (H 200%Z (VObject [("access_token", Scene.odd)]) Scene.odd
                eq_refl eq_refl eq_refl)
      as (Ht & _ & _ & (Hu & Hl & _ & He & Hp) & _).
    split; [exact Ht|]. split; [exact Hp|]. split; [exact Hu|].
    split; [exact Hl | exact He].
Defined.

(** A login answered 200 with [null]. *)
Lemma login_with_null_body_fails_witness :
  let r := dispatch (scripted Scene.null_body Demo.noon []) Login
             (Demo.door "secret") tt in
  token (ui (final r)) = VNull
  /\ localStorage (final r) = ∅
  /\ error (ui (final r)) = nullAccessMessage VNull "access_token".
Proof.
  cbv zeta.
  destruct (login_with_null_body_fails (scripted Scene.null_body Demo.noon [])
              (Demo.door "secret") tt) as (x & Hreq & H).
  vm_compute in Hreq. injection Hreq as <-.
  rewrite (H 200%Z eq_refl).
  repeat split.
Defined.

(** The desk over a damaged user item. *)
Lemma corrupt_user_item_logs_out_witness :
  truthy (token (ui Scene.damaged)) = true
  /\ localStorage Scene.damaged !! "user" = Some (Plain "{oops")
  /\ token_effect Scene.damaged = handleLogout Scene.damaged
  /\ page (ui (token_effect Scene.damaged)) = LoginPage
  /\ getItem "token" (token_effect Scene.damaged) = Some VNull
  /\ getItem "user" (token_effect Scene.damaged) = Some VNull.
Proof.
  split; [reflexivity|]. split; [reflexivity|].
  apply (corrupt_user_item_logs_out Scene.damaged "{oops"
           (mkExn "SyntaxError" "") eq_refl eq_refl).
  - discriminate.
  - reflexivity.
Defined.

(** A login answered with a token. *)
Lemma effect_after_login_changes_nothing_witness :
  let r := dispatch (scripted Scene.granted Demo.noon []) Login
             (Demo.door "secret") tt in
  token (ui (final r)) = VString "t-17"
  /\ localStorage (final r) !! "token" = Some (Plain "t-17")
  /\ token_effect (final r) = final r.
Proof.
  cbv zeta. split; [reflexivity|].
  destruct (effect_after_login_changes_nothing (scripted Scene.granted Demo.noon [])
              (Demo.door "secret") tt) as (x & Hreq & H).
  vm_compute in Hreq. injection Hreq as <-.
  exact (H 200%Z _ (VString "t-17") "t-17" eq_refl eq_refl eq_refl eq_refl).
Defined.

(** The page is loaded again after the login without [access_token]. *)
Lemma reload_after_login_witness :
  let r := dispatch (scripted Scene.tokenless Demo.noon []) Login
             (Demo.door "secret") tt in
  page (ui (final r)) = LoginPage
  /\ exists m',
      reload "2024-05-02" "2024-05-02" "2024-05-02" (final r) = Some m'
      /\ page (ui m') = MainPage
      /\ token (ui m') = VString "undefined"
      /\ welcome (ui m') = inr (VString "admin").
Proof.
  cbv zeta.
  destruct (reload_after_login (scripted Scene.tokenless Demo.noon [])
              "2024-05-02" "2024-05-02" "2024-05-02" (Demo.door "secret") tt)
    as (x & Hreq & H).
  vm_compute in Hreq. injection Hreq as <-.
  destruct (H 200%Z (VObject [("token", VString "t-17")]) VUndefined
              eq_refl eq_refl eq_refl)
    as (m' & Hm & _ & _ & Hne & Hund).
  destruct (Hund eq_refl) as (Hp & Hp' & Ht).
  assert (Hn : "undefined" <> "") by discriminate.
  destruct (Hne Hn) as (_ & _ & Hw).
  split; [exact Hp|].
  exists m'. split; [exact Hm|]. split; [exact Hp'|]. split; [exact Ht | exact Hw].
Defined.

(** A fee summary is asked for again and the answer is a 404. *)
Lemma failed_lookup_leaves_no_card_witness :
  bool_decide (fee_summary_card (ui Scene.busy) <> None) = true
  /\ skipped GetFeeSummary (ui Scene.busy) = false
  /\ let r := dispatch (scripted Demo.not_found Demo.noon []) GetFeeSummary
                Scene.busy tt in
     fee_summary_card (ui (final r)) = None.
Proof.
  split; [reflexivity|]. split; [reflexivity|]. cbv zeta.
  destruct (failed_lookup_leaves_no_card (scripted Demo.not_found Demo.noon [])
              GetFeeSummary Scene.busy tt (or_intror eq_refl) eq_refl)
    as (x & Hreq & _ & _ & H).
  vm_compute in Hreq. injection Hreq as <-.
  specialize (H eq_refl). cbv beta iota in H.
  apply bool_decide_eq_false in H.
  destruct (fee_summary_card _) as [c|]; [|reflexivity].
  exfalso. apply H. discriminate.
Defined.


(** A user creation is refused while an old success message is shown. *)
Lemma submissions_leave_one_banner_witness :
  success_banner (ui Scene.busy) = Some "Fee payment recorded successfully!"
  /\ let r := dispatch (scripted Scene.invalid Demo.noon []) CreateUser Scene.busy tt in
     success_banner (ui (final r)) = None.
Proof.
  split; [reflexivity|]. cbv zeta.
  destruct (submissions_leave_one_banner (scripted Scene.invalid Demo.noon [])
              CreateUser Scene.busy tt (or_intror eq_refl))
    as (x & Hreq & _ & _ & H).
  vm_compute in Hreq. injection Hreq as <-.
  exact H.
Defined.

(** A lookup fails while an old success message is shown. *)
Lemma old_success_message_stays_witness :
  let r := dispatch (scripted Demo.not_found Demo.noon []) LookupStudent
             Scene.busy tt in
  success_banner (ui (final r)) = Some "Fee payment recorded successfully!"
  /\ error_banner (ui (final r)) = Some "Student not found".
Proof.
  cbv zeta.
  destruct (old_success_message_stays (scripted Demo.not_found Demo.noon [])
              LookupStudent Scene.busy tt (or_introl eq_refl))
    as (_ & _ & H & _).
  unfold success_banner. rewrite (H eq_refl). split; reflexivity.
Defined.

(** A user creation answered with a validation failure, and one
    answered with a detail that cannot be written as text. *)
Lemma detail_is_shown_as_text_witness :
  skipped CreateUser (ui Demo.desk) = false
  /\ (let r := dispatch (scripted Scene.invalid Demo.noon []) CreateUser Demo.desk tt in
      error_banner (ui (final r)) = Some "[object Object]")
  /\ (let r := dispatch (scripted Scene.odd_detail Demo.noon []) CreateUser Demo.desk tt in
      error (ui (final r)) = "Cannot convert object to primitive value").
Proof.
  split; [reflexivity|]. split; cbv zeta.
  - destruct (detail_is_shown_as_text (scripted Scene.invalid Demo.noon [])
                CreateUser Demo.desk tt eq_refl) as (x & Hreq & H & _).
    vm_compute in Hreq. injection Hreq as <-.
    destruct (H 422%Z _ (VArray [VObject [("msg", VString "field required")]])
                eq_refl eq_refl eq_refl eq_refl) as (_ & Hb & _).
    exact (Hb _ eq_refl eq_refl).
  - destruct (detail_is_shown_as_text (scripted Scene.odd_detail Demo.noon [])
                CreateUser Demo.desk tt eq_refl) as (x & Hreq & H & _).
    vm_compute in Hreq. injection Hreq as <-.
    destruct (H 422%Z _ Scene.odd eq_refl eq_refl eq_refl eq_refl) as (_ & _ & Hb).
    assert (Hown : lookup_prop "toString" [("toString", Scene.whole 1)] <> None)
      by discriminate.
    exact (Hb _ eq_refl Hown).
Defined.


(** The date of noon. *)
Lemma before_takes_the_date_witness :
  occurs "T" "2024-05-01" = false
  /\ before "T" Demo.noon = "2024-05-01".
Proof.
  split; [reflexivity|].
  destruct (before_takes_the_date "T" Demo.noon) as (_ & _ & _ & H).
  exact (H "2024-05-01" "12:00:00.000Z" eq_refl eq_refl).
Defined.

(** The user types a name and changes the tab. *)
Lemma inputs_keep_the_session_witness :
  Forall (fun a => a <> ClickLogout) [TypeLoginUsername "eve"; ChooseTab "fee-payment"]
  /\ token (ui (perform_all [TypeLoginUsername "eve"; ChooseTab "fee-payment"] Demo.desk))
     = VString "session-admin"
  /\ page (ui (perform_all [TypeLoginUsername "eve"; ChooseTab "fee-payment"] Demo.desk))
     = MainPage.
Proof.
  assert (H : Forall (fun a => a <> ClickLogout)
                [TypeLoginUsername "eve"; ChooseTab "fee-payment"]).
  { repeat (constructor; [discriminate|]). constructor. }
  split; [exact H|].
  destruct (inputs_keep_the_session _ Demo.desk H) as (Ht & _ & _ & Hp & _).
  split; [exact Ht | exact Hp].
Defined.
